(** * Photoprotection catalogue (app.py): a shallow embedding of the
    value parser, the label builder, the comparison builders, the column
    projector, the selection view and the cached dataset loader. *)

From Stdlib Require Import ZArith List String Ascii Bool Lia.
Import ListNotations.
Open Scope Z_scope.
Open Scope list_scope.

(** ** Python strings

    A Python [str] is a sequence of Unicode code points.  Literals of the
    source are written as Rocq string literals (UTF-8 bytes) and decoded
    with [u]. *)

Definition pystr := list Z.

Fixpoint utf8_decode (l : list Z) : pystr :=
  match l with
  | [] => []
  | b :: r =>
      if b <? 128 then b :: utf8_decode r
      else if b <? 224 then
        match r with
        | c :: r' => ((b - 192) * 64 + (c - 128)) :: utf8_decode r'
        | [] => []
        end
      else if b <? 240 then
        match r with
        | c :: d :: r' =>
            ((b - 224) * 4096 + (c - 128) * 64 + (d - 128)) :: utf8_decode r'
        | _ => []
        end
      else
        match r with
        | c :: d :: e :: r' =>
            ((b - 240) * 262144 + (c - 128) * 4096 + (d - 128) * 64
             + (e - 128)) :: utf8_decode r'
        | _ => []
        end
  end.

Definition u (s : string) : pystr :=
  utf8_decode (map (fun a => Z.of_N (N_of_ascii a)) (list_ascii_of_string s)).

Definition streq (a b : pystr) : bool :=
  if list_eq_dec Z.eq_dec a b then true else false.

(** [str.isspace]: the complete list of Python's whitespace code points. *)
Definition is_space (c : Z) : bool :=
  ((9 <=? c) && (c <=? 13)) || ((28 <=? c) && (c <=? 32)) || (c =? 133)
  || (c =? 160) || (c =? 5760) || ((8192 <=? c) && (c <=? 8202))
  || (c =? 8232) || (c =? 8233) || (c =? 8239) || (c =? 8287)
  || (c =? 12288).

Fixpoint drop_while (p : Z -> bool) (s : pystr) : pystr :=
  match s with
  | [] => []
  | c :: r => if p c then drop_while p r else s
  end.

(** [s.strip(chars)]: remove leading and trailing characters of a set. *)
Definition strip_chars (p : Z -> bool) (s : pystr) : pystr :=
  rev (drop_while p (rev (drop_while p s))).

(** [s.strip()] *)
Definition strip (s : pystr) : pystr := strip_chars is_space s.

(** [str.lower] on the code points that lower-case to ASCII letters used
    by the comparisons of the source ("na", "n/a", "none", "nan", "inf",
    "infinity"): only the ASCII capitals map onto them. *)
Definition lower (s : pystr) : pystr :=
  map (fun c => if (65 <=? c) && (c <=? 90) then c + 32 else c) s.

(** [s.endswith(ch)] for a one-character suffix, and [s[:-1]]. *)
Definition endswith (s : pystr) (ch : Z) : bool :=
  match rev s with
  | c :: _ => c =? ch
  | [] => false
  end.

Definition drop_last (s : pystr) : pystr := rev (tl (rev s)).

(** ** Exceptions as an error monad *)

Inductive exn :=
  | ValueError (msg : pystr)
  | ZeroDivisionError
  | FileNotFoundError (path : pystr)
  | BadZipFile.

Definition res (A : Type) := (exn + A)%type.
Definition ret {A} (a : A) : res A := inr a.
Definition raise {A} (e : exn) : res A := inl e.
Definition bind {A B} (m : res A) (k : A -> res B) : res B :=
  match m with inl e => inl e | inr a => k a end.

Notation "x <- m ;; k" := (bind m (fun x => k))
  (at level 61, m at next level, right associativity).

Fixpoint mapM {A B} (f : A -> res B) (l : list A) : res (list B) :=
  match l with
  | [] => ret []
  | a :: r => b <- f a ;; bs <- mapM f r ;; ret (b :: bs)
  end.

(** ** IEEE-754 binary64 values

    [F64 neg m e] is [(-1)^neg * m * 2^e] with [m < 2^53]; normal values
    have [2^52 <= m], subnormals have [e = -1074]; zero is [F64 neg 0 0]. *)

Inductive f64 :=
  | F64 (neg : bool) (m : Z) (e : Z)
  | F64Inf (neg : bool)
  | F64NaN.

Definition f64_is_zero (x : f64) : bool :=
  match x with F64 _ m _ => m =? 0 | _ => false end.

(** [x / 2^e] as a fraction [(num, den)]. *)
Definition scale (n d e : Z) : Z * Z :=
  if 0 <=? e then (n, d * 2 ^ e) else (n * 2 ^ (- e), d).

(** Round-to-nearest-even of the non-negative rational [n / d] (with
    [0 < d]) to binary64, with sign [neg]. *)
Definition round_binary64 (neg : bool) (n d : Z) : f64 :=
  if n =? 0 then F64 neg 0 0 else
  let e0 := Z.log2 n - Z.log2 d - 52 in
  let e1 := let '(a, b) := scale n d e0 in
            if a / b <? 2 ^ 52 then e0 - 1 else e0 in
  let e2 := Z.max e1 (-1074) in
  let '(a, b) := scale n d e2 in
  let q := a / b in
  let r := a mod b in
  let q' := if (b <? 2 * r) || ((2 * r =? b) && Z.odd q) then q + 1 else q in
  let '(m, e) := if q' =? 2 ^ 53 then (2 ^ 52, e2 + 1) else (q', e2) in
  if m =? 0 then F64 neg 0 0
  else if 971 <? e then F64Inf neg
  else F64 neg m e.

(** The value [(-1)^neg * M * 10^E] of a decimal literal with [L] digits,
    rounded; far out-of-range exponents go straight to infinity or zero
    (as [_Py_dg_strtod] does), which the exact rounding would also give. *)
Definition f64_of_decimal (neg : bool) (M E : Z) (L : Z) : f64 :=
  if M =? 0 then F64 neg 0 0
  else if 400 <=? E then F64Inf neg
  else if E <=? - (L + 400) then F64 neg 0 0
  else if 0 <=? E then round_binary64 neg (M * 10 ^ E) 1
  else round_binary64 neg M (10 ^ (- E)).

(** Python's [a / b] on floats. *)
Definition py_div (a b : f64) : res f64 :=
  if f64_is_zero b then raise ZeroDivisionError else
  match a, b with
  | F64NaN, _ | _, F64NaN => ret F64NaN
  | F64Inf _, F64Inf _ => ret F64NaN
  | F64Inf s, F64 t _ _ => ret (F64Inf (xorb s t))
  | F64 s _ _, F64Inf t => ret (F64 (xorb s t) 0 0)
  | F64 s ma ea, F64 t mb eb =>
      ret (round_binary64 (xorb s t) (ma * 2 ^ Z.max 0 (ea - eb))
                                     (mb * 2 ^ Z.max 0 (eb - ea)))
  end.

(** ** Python's [float(s)] on a [str]

    CPython first checks that every underscore sits between two digits and
    removes the underscores, strips whitespace, then requires
    [_Py_parse_inf_or_nan] or [_Py_dg_strtod] to consume the whole text:
    [[+-]] ([inf] | [infinity] | [nan] | digits [[.digits]] [[(e|E)[+-]digits]]),
    with at least one digit in the mantissa.  Digits are the ASCII ones. *)

Definition is_digit (c : Z) : bool := (48 <=? c) && (c <=? 57).

Fixpoint take_while (p : Z -> bool) (s : pystr) : pystr :=
  match s with
  | [] => []
  | c :: r => if p c then c :: take_while p r else []
  end.

Definition digits_value (l : pystr) : Z :=
  fold_left (fun acc d => acc * 10 + (d - 48)) l 0.

(** [_Py_string_to_number_with_underscores]: [prev] is the previous
    character (0 at the start). *)
Fixpoint underscores_ok (prev : Z) (s : pystr) : bool :=
  match s with
  | [] => negb (prev =? 95)
  | c :: r =>
      if c =? 95 then is_digit prev && underscores_ok c r
      else (negb (prev =? 95) || is_digit c) && underscores_ok c r
  end.

(** An optional leading ['-'] or ['+']. *)
Definition split_sign (s : pystr) : bool * pystr :=
  match s with
  | c :: r => if c =? 45 then (true, r) else if c =? 43 then (false, r)
              else (false, s)
  | [] => (false, [])
  end.

Definition parse_exponent (s : pystr) : option Z :=
  let '(neg, r) := split_sign s in
  let ds := take_while is_digit r in
  match ds, drop_while is_digit r with
  | _ :: _, [] => Some (if neg then - digits_value ds else digits_value ds)
  | _, _ => None
  end.

Definition parse_unsigned (neg : bool) (r : pystr) : option f64 :=
  let lr := lower r in
  if streq lr (u "inf") || streq lr (u "infinity") then Some (F64Inf neg)
  else if streq lr (u "nan") then Some F64NaN
  else
    let ip := take_while is_digit r in
    let r1 := drop_while is_digit r in
    let '(fp, r2) := match r1 with
                     | 46 :: r1' => (take_while is_digit r1',
                                     drop_while is_digit r1')
                     | _ => ([], r1)
                     end in
    if (List.length (ip ++ fp) =? 0)%nat then None else
    let eopt := match r2 with
                | [] => Some 0
                | c :: r3 => if (c =? 101) || (c =? 69)
                             then parse_exponent r3 else None
                end in
    match eopt with
    | None => None
    | Some E => Some (f64_of_decimal neg (digits_value (ip ++ fp))
                        (E - Z.of_nat (List.length fp))
                        (Z.of_nat (List.length (ip ++ fp))))
    end.

Definition parse_float_body (s : pystr) : option f64 :=
  let '(neg, r) := split_sign s in parse_unsigned neg r.

Definition py_float (s : pystr) : res f64 :=
  if existsb (Z.eqb 95) s && negb (underscores_ok 0 s)
  then raise (ValueError (u "could not convert string to float: " ++ s))
  else
    match parse_float_body (strip (filter (fun c => negb (c =? 95)) s)) with
    | Some f => ret f
    | None => raise (ValueError (u "could not convert string to float: " ++ s))
    end.

(** ** Value parser: [to_float] (app.py, lines 85-105)

    [value] is [None] or a cell text. *)

Definition is_na_marker (s : pystr) : bool :=
  streq s (u "na") || streq s (u "n/a") || streq s (u "none").

(** [if s.endswith("+"): s = s[:-1]] then [if s.endswith("%"): s = s[:-1]]. *)
Definition strip_annotations (s : pystr) : pystr :=
  let s := if endswith s 43 then drop_last s else s in
  if endswith s 37 then drop_last s else s.

Definition to_float (value : option pystr) : res (option f64) :=
  match value with
  | None => ret None
  | Some v =>
      let s := strip v in
      if (List.length s =? 0)%nat || is_na_marker (lower s) then ret None else
      match py_float (strip_annotations s) with
      | inr f => ret (Some f)
      | inl (ValueError _) => ret None
      | inl e => raise e
      end
  end.

(** ** Tables (pandas DataFrames of text cells)

    [index] and [rows] are parallel; a row is the list of its cells in
    column order.  [row_of] is the [pd.Series] that [df.iterrows()] yields:
    the cells keyed by column name. *)

Record table := mk_table {
  columns : list pystr;
  index : list Z;
  rows : list (list pystr)
}.

(** [df.empty]: true when either axis has length zero. *)
Definition df_empty (t : table) : bool :=
  (List.length (columns t) =? 0)%nat || (List.length (rows t) =? 0)%nat.

Definition row := list (pystr * pystr).

Definition row_of (t : table) (r : list pystr) : row := combine (columns t) r.

(** [row.get(key, default)]: the cell of the column named [key]; loaded
    tables have distinct column names, so the first match is the match. *)
Definition row_get (r : row) (key default : pystr) : pystr :=
  match find (fun kv => streq (fst kv) key) r with
  | Some (_, v) => v
  | None => default
  end.

(** ** Label builder: [make_label] (app.py, lines 52-80) *)

Definition is_empty {A} (s : list A) : bool :=
  match s with [] => true | _ => false end.

(** [sep.join(xs)] *)
Fixpoint join (sep : pystr) (xs : list pystr) : pystr :=
  match xs with
  | [] => []
  | [x] => x
  | x :: r => x ++ sep ++ join sep r
  end.

(** The loop over [row.values]: the first cell whose stripped text is
    non-empty, as it is (not stripped); [""] when there is none. *)
Fixpoint first_nonempty (vs : list pystr) : pystr :=
  match vs with
  | [] => []
  | v :: r => if negb (is_empty (strip v)) then v else first_nonempty r
  end.

(** The characters of [.strip(" —")]. *)
Definition is_sep (c : Z) : bool := (c =? 32) || (c =? 8212).

(** The [extra] suffix of [make_label]. *)
Definition label_extra (r : row) (kind : pystr) : pystr :=
  if streq kind (u "sun") then
    let vol := strip (row_get r (u "Volume (ml)") []) in
    if negb (is_empty vol) && negb (streq (lower vol) (u "nan"))
    then u " — " ++ vol ++ u " ml" else []
  else if streq kind (u "cloth") then
    let mat := strip (row_get r (u "Material") []) in
    if negb (is_empty mat) && negb (streq (lower mat) (u "nan"))
    then u " — " ++ mat else []
  else [].

Definition make_label (r : row) (kind : pystr) : pystr :=
  let brand := strip (row_get r (u "Product Brand") []) in
  let name := strip (row_get r (u "Product Name") []) in
  let extra := label_extra r kind in
  let label := join (u " — ") (filter (fun x => negb (is_empty x)) [brand; name]) in
  let label := if is_empty label then first_nonempty (map snd r) else label in
  strip_chars is_sep (label ++ extra).

(** ** Comparison builders (app.py, lines 110-201) *)

Definition col_spf_lab := u "SPF (lab)".
Definition col_uva_lab := u "UVA Protection (Lab)".
Definition col_bl_lab := u "Blue Light Protection (lab)".
Definition col_vis_lab := u "Visible Protection (lab)".
Definition col_price := u "Price (£)".
Definition col_vol := u "Volume (ml)".

Record sun_record := mk_sun_record {
  sun_product : pystr;
  sun_spf_lab : option f64;
  sun_uva_pf_lab : option f64;
  sun_blue_light_lab : option f64;
  sun_visible_lab : option f64;
  sun_price_per_ml : option f64
}.

Record cloth_record := mk_cloth_record {
  cloth_product : pystr;
  cloth_spf_lab : option f64;
  cloth_uva_pf_lab : option f64;
  cloth_blue_light_lab : option f64;
  cloth_visible_lab : option f64;
  cloth_price : option f64
}.

(** [price_per_ml = None; if price is not None and vol not in (None, 0):
    price_per_ml = price / vol]; [vol == 0] holds for both signed zeros. *)
Definition price_per_ml_of (price vol : option f64) : res (option f64) :=
  match price, vol with
  | Some p, Some v =>
      if f64_is_zero v then ret None
      else q <- py_div p v ;; ret (Some q)
  | _, _ => ret None
  end.

(** The body of the [for _, row in df.iterrows()] loop for sunscreens. *)
Definition sun_row (r : row) : res sun_record :=
  let name := make_label r (u "sun") in
  spf_lab <- to_float (Some (row_get r col_spf_lab [])) ;;
  uva_pf <- to_float (Some (row_get r col_uva_lab [])) ;;
  bl <- to_float (Some (row_get r col_bl_lab [])) ;;
  vis <- to_float (Some (row_get r col_vis_lab [])) ;;
  price <- to_float (Some (row_get r col_price [])) ;;
  vol <- to_float (Some (row_get r col_vol [])) ;;
  price_per_ml <- price_per_ml_of price vol ;;
  ret (mk_sun_record name spf_lab uva_pf bl vis price_per_ml).

Definition build_sunscreen_comparison (df : table) : res (list sun_record) :=
  if df_empty df then ret []
  else mapM sun_row (map (row_of df) (rows df)).

Definition cloth_row (r : row) : res cloth_record :=
  let name := make_label r (u "cloth") in
  spf_lab <- to_float (Some (row_get r col_spf_lab [])) ;;
  uva_pf <- to_float (Some (row_get r col_uva_lab [])) ;;
  bl <- to_float (Some (row_get r col_bl_lab [])) ;;
  vis <- to_float (Some (row_get r col_vis_lab [])) ;;
  price <- to_float (Some (row_get r col_price [])) ;;
  ret (mk_cloth_record name spf_lab uva_pf bl vis price).

Definition build_clothing_comparison (df : table) : res (list cloth_record) :=
  if df_empty df then ret []
  else mapM cloth_row (map (row_of df) (rows df)).

(** ** Column projector: [safe_select_columns] (app.py, lines 361-366)

    [df[present]] takes, for each requested name in turn, every column of
    [df] carrying that name (pandas' indexer on column labels). *)

Fixpoint positions_from (n : nat) (c : pystr) (cols : list pystr) : list nat :=
  match cols with
  | [] => []
  | x :: r => if streq x c then n :: positions_from (S n) c r
              else positions_from (S n) c r
  end.

Definition positions (c : pystr) (cols : list pystr) : list nat :=
  positions_from 0 c cols.

Definition safe_select_columns (df : table) (cols : list pystr) : table :=
  let present := filter (fun c => existsb (streq c) (columns df)) cols in
  if is_empty present then
    (* df.iloc[:, 0:0] *)
    mk_table [] (index df) (map (fun _ => []) (rows df))
  else
    mk_table
      (flat_map (fun c => map (fun _ => c) (positions c (columns df))) present)
      (index df)
      (map (fun r => flat_map (fun c => map (fun i => nth i r [])
                                            (positions c (columns df)))
                              present)
           (rows df)).

(** ** Selection view of a tab (app.py, lines 375-400 and 420-445)

    [labels.isin(chosen)] gives the mask; [df.loc[mask, df.columns]] keeps
    the rows (and index labels) where the mask holds, in order. *)

Fixpoint mask_filter {A} (mask : list bool) (l : list A) : list A :=
  match mask, l with
  | b :: m, x :: r => if b then x :: mask_filter m r else mask_filter m r
  | _, _ => []
  end.

Definition labels_of (t : table) (kind : pystr) : list pystr :=
  map (fun r => make_label (row_of t r) kind) (rows t).

Definition isin (labels chosen : list pystr) : list bool :=
  map (fun l => existsb (streq l) chosen) labels.

Definition loc_mask (t : table) (mask : list bool) : table :=
  mk_table (columns t) (mask_filter mask (index t)) (mask_filter mask (rows t)).

Inductive tab_out :=
  | TabInfo (msg : pystr)
  | TabView (view : table).

Definition tab_view (kind info : pystr) (t : table) (chosen : list pystr)
    (show_all : bool) : tab_out :=
  if df_empty t then TabInfo info
  else if show_all then TabView t
  else TabView (loc_mask t (isin (labels_of t kind) chosen)).

Definition sun_info :=
  u "No sunscreen data yet. Add rows to the 'Sunscreens' sheet.".
Definition cloth_info :=
  u "No clothing data yet. Add rows to the 'Clothing' sheet.".

(** ** Dataset loader: [load_sheet] under [@st.cache_data] (app.py, 43-49)

    The file system maps paths to workbooks; a workbook is corrupt or a
    list of named sheets whose cells may be missing ([None], pandas' NaN).
    [pd.read_excel(..., dtype=str)] raises for a missing file, a file that
    is not a workbook, or a missing sheet. *)

Record raw_sheet := mk_raw_sheet {
  raw_columns : list pystr;
  raw_index : list Z;
  raw_rows : list (list (option pystr))
}.

Inductive xlsx :=
  | Corrupt
  | Workbook (sheets : list (pystr * raw_sheet)).

Fixpoint assoc {K V} (eqb : K -> K -> bool) (k : K) (l : list (K * V))
  : option V :=
  match l with
  | [] => None
  | (k', v) :: r => if eqb k k' then Some v else assoc eqb k r
  end.

Definition read_excel (fs : list (pystr * xlsx)) (path sheet : pystr)
  : res raw_sheet :=
  match assoc streq path fs with
  | None => raise (FileNotFoundError path)
  | Some Corrupt => raise BadZipFile
  | Some (Workbook sheets) =>
      match assoc streq sheet sheets with
      | None => raise (ValueError (u "Worksheet named '" ++ sheet
                                   ++ u "' not found"))
      | Some s => ret s
      end
  end.

(** The body of [load_sheet]: read, [fillna("")], headers as text. *)
Definition load_sheet (fs : list (pystr * xlsx)) (path sheet : pystr)
  : res table :=
  df <- read_excel fs path sheet ;;
  ret (mk_table (raw_columns df) (raw_index df)
         (map (map (fun c => match c with Some v => v | None => [] end))
              (raw_rows df))).

(** The process state: the file system, the [st.cache_data] store keyed
    by the arguments, and the number of source reads performed.  A call
    that raises is not cached. *)
Record world := mk_world {
  fs : list (pystr * xlsx);
  cache : list ((pystr * pystr) * table);
  reads : nat
}.

Definition key_eqb (a b : pystr * pystr) : bool :=
  streq (fst a) (fst b) && streq (snd a) (snd b).

Definition cached_load_sheet (w : world) (path sheet : pystr)
  : world * res table :=
  match assoc key_eqb (path, sheet) (cache w) with
  | Some t => (w, ret t)
  | None =>
      let w' := mk_world (fs w) (cache w) (S (reads w)) in
      match load_sheet (fs w) path sheet with
      | inl e => (w', raise e)
      | inr t => (mk_world (fs w) (((path, sheet), t) :: cache w)
                           (S (reads w)), ret t)
      end
  end.

(** ** Script start-up and tabs (app.py, lines 346-356, 371-458) *)

Definition DATA_XLSX_name := u "photoprotection_catalogue_template.xlsx".
Definition DATA_XLSX (app_dir : pystr) := app_dir ++ u "/" ++ DATA_XLSX_name.
Definition SHEET_SUN := u "Sunscreens".
Definition SHEET_CLO := u "Clothing".

Definition exn_text (e : exn) : pystr :=
  match e with
  | ValueError msg => msg
  | ZeroDivisionError => u "float division by zero"
  | FileNotFoundError p =>
      u "[Errno 2] No such file or directory: '" ++ p ++ u "'"
  | BadZipFile => u "File is not a zip file"
  end.

(** [st.error(f"Could not load sheet '{sheet}' from {DATA_XLSX.name}: {e}")] *)
Definition load_error_message (sheet : pystr) (e : exn) : pystr :=
  u "Could not load sheet '" ++ sheet ++ u "' from " ++ DATA_XLSX_name
  ++ u ": " ++ exn_text e.

(** [try: t = load_sheet(...) except Exception as e: t = pd.DataFrame();
    st.error(...)]: every exception of the model is an [Exception]. *)
Definition empty_dataframe : table := mk_table [] [] [].

Definition report (sheet : pystr) (r : res table) : table * list pystr :=
  match r with
  | inr t => (t, [])
  | inl e => (empty_dataframe, [load_error_message sheet e])
  end.

Definition load_or_report (w : world) (path sheet : pystr)
  : world * (table * list pystr) :=
  let '(w', r) := cached_load_sheet w path sheet in (w', report sheet r).

Record ui_input := mk_ui_input {
  sun_chosen : list pystr;
  sun_show_all : bool;
  cloth_chosen : list pystr;
  cloth_show_all : bool
}.

Record app_out := mk_app_out {
  suns : table;
  cloth : table;
  errors : list pystr;
  tab1 : tab_out;
  tab2 : tab_out
}.

(** One run of the script. *)
Definition run_app (app_dir : pystr) (w : world) (ui : ui_input)
  : world * app_out :=
  let '(w1, (suns, err1)) := load_or_report w (DATA_XLSX app_dir) SHEET_SUN in
  let '(w2, (cloth, err2)) := load_or_report w1 (DATA_XLSX app_dir) SHEET_CLO in
  (w2, mk_app_out suns cloth (err1 ++ err2)
         (tab_view (u "sun") sun_info suns (sun_chosen ui) (sun_show_all ui))
         (tab_view (u "cloth") cloth_info cloth (cloth_chosen ui)
                   (cloth_show_all ui))).

(** ** Decimal-formatted strings: [-?[0-9]+(\.[0-9]+)?] *)

Definition decimal_literal (neg : bool) (ip fp : pystr) : pystr :=
  (if neg then [45] else []) ++ ip ++ (if is_empty fp then [] else 46 :: fp).

(** The parsed value of a cell, as the builders bind it (the [inl] case
    never happens: see [to_float_no_raise]). *)
Definition cell_float (r : row) (col : pystr) : option f64 :=
  match to_float (Some (row_get r col [])) with
  | inr o => o
  | inl _ => None
  end.

(** The states a process can reach: further cached loads, and changes to
    the files on disk. *)
Inductive reachable : world -> world -> Prop :=
  | reach_refl w : reachable w w
  | reach_load w path sheet w' :
      reachable (fst (cached_load_sheet w path sheet)) w' -> reachable w w'
  | reach_fs w fs' w' :
      reachable (mk_world fs' (cache w) (reads w)) w' -> reachable w w'.

(** ** Comparison panel (app.py, lines 204-303)

    The rendering layer raises, besides the exceptions of the model,
    pandas' [KeyError] on a missing column and Streamlit's API error. *)

Inductive app_exn :=
  | PyExn (e : exn)
  | KeyError (key : pystr)
  | StreamlitAPIException (msg : pystr).

(** A cell of a comparison frame: the product label, or a float or [None]. *)
Inductive cell :=
  | CText (s : pystr)
  | CNum (x : option f64).

(** [pd.isna]: [None] and NaN are missing; infinities are not. *)
Definition is_na (c : cell) : bool :=
  match c with
  | CNum None | CNum (Some F64NaN) => true
  | _ => false
  end.

(** The frames [pd.DataFrame(rows)] built from the comparison records: the
    record keys (all distinct) as columns, one row per record. *)
Record frame := mk_frame {
  fcolumns : list pystr;
  frows : list (list cell)
}.

Definition frame_empty (f : frame) : bool :=
  (List.length (fcolumns f) =? 0)%nat || (List.length (frows f) =? 0)%nat.

Definition SUN_COMP_COLS : list pystr :=
  [u "Product"; u "SPF_lab (UVB)"; u "UVA_PF_lab"; u "Blue_light_lab";
   u "Visible_lab"; u "Price_per_ml_£"].

Definition CLO_COMP_COLS : list pystr :=
  [u "Product"; u "SPF_lab (UVB)"; u "UVA_PF_lab"; u "Blue_light_lab";
   u "Visible_lab"; u "Price_£"].

(** [pd.DataFrame(rows)] on the list of record dicts; [pd.DataFrame()] and
    [pd.DataFrame([])] both have no column. *)
Definition sun_cells (r : sun_record) : list cell :=
  [CText (sun_product r); CNum (sun_spf_lab r); CNum (sun_uva_pf_lab r);
   CNum (sun_blue_light_lab r); CNum (sun_visible_lab r);
   CNum (sun_price_per_ml r)].

Definition sun_frame (recs : list sun_record) : frame :=
  mk_frame (if is_empty recs then [] else SUN_COMP_COLS) (map sun_cells recs).

Definition cloth_cells (r : cloth_record) : list cell :=
  [CText (cloth_product r); CNum (cloth_spf_lab r); CNum (cloth_uva_pf_lab r);
   CNum (cloth_blue_light_lab r); CNum (cloth_visible_lab r);
   CNum (cloth_price r)].

Definition cloth_frame (recs : list cloth_record) : frame :=
  mk_frame (if is_empty recs then [] else CLO_COMP_COLS) (map cloth_cells recs).

(** The position of a column label (the first one). *)
Fixpoint index_of (c : pystr) (cols : list pystr) : option nat :=
  match cols with
  | [] => None
  | x :: r => if streq x c then Some 0%nat else option_map S (index_of c r)
  end.

(** [str(n)] for a Python int. *)
Fixpoint digits_aux (fuel : nat) (n : Z) (acc : pystr) : pystr :=
  match fuel with
  | O => acc
  | S f =>
      let acc' := (48 + n mod 10) :: acc in
      if n <? 10 then acc' else digits_aux f (n / 10) acc'
  end.

Definition py_str_int (n : Z) : pystr :=
  if n <? 0 then 45 :: digits_aux (Z.to_nat (Z.log2 (- n) + 1)) (- n) []
  else digits_aux (Z.to_nat (Z.log2 n + 1)) n [].

(** The figure of [px.bar(...)] after [fig.update_layout(...)]. *)
Record figure := mk_figure {
  fig_x : list cell;
  fig_y : list cell;
  fig_y_column : pystr;
  fig_color : list cell;
  fig_text_auto : pystr;
  fig_height : Z;
  fig_title : pystr;
  fig_xaxis_title : pystr;
  fig_yaxis_title : pystr;
  fig_legend_title : pystr;
  fig_font_size : Z;
  fig_title_font_size : Z
}.

(** [plotly_bar(mdf, col, title, y_label, decimals)]; [mdf] is the list of
    its (Product, col) rows. *)
Definition plotly_bar (mdf : list (cell * cell)) (col title y_label : pystr)
    (decimals : Z) : figure :=
  mk_figure (map fst mdf) (map snd mdf) col (map fst mdf)
    (u "." ++ py_str_int decimals ++ u "f") 320 title
    (u "Product") y_label (u "Product") 17 20.

(** What the script writes to the page.  [Columns spec] is [st.columns]
    ([st.columns(n)] is [st.columns([1] * n)]); the [col] of a later element
    is the container, in the latest row of columns, it is written to. *)
Inductive element :=
  | Info (msg : pystr)
  | Markdown (text : pystr)
  | Caption (text : pystr)
  | Columns (spec : list Z)
  | Multiselect (col : nat) (label : pystr) (options : list pystr)
      (max_selections : Z) (key : pystr)
  | Toggle (col : nat) (label : pystr) (value : bool) (key : pystr)
  | Chart (col : nat) (fig : figure) (use_container_width : bool)
  | Image (col : nat) (path : pystr) (width : Z) (caption : pystr)
  | Write (col : nat) (text : pystr)
  | DataFrameEl (t : table) (use_container_width hide_index : bool).

(** Page output and exceptions: the elements written so far are kept when
    an exception stops the script. *)
Definition ui (A : Type) := list element -> list element * (app_exn + A).

Definition ui_ret {A} (a : A) : ui A := fun out => (out, inr a).
Definition ui_raise {A} (e : app_exn) : ui A := fun out => (out, inl e).
Definition ui_emit (e : element) : ui unit := fun out => (out ++ [e], inr tt).
Definition ui_bind {A B} (m : ui A) (k : A -> ui B) : ui B :=
  fun out => match m out with
             | (o, inl e) => (o, inl e)
             | (o, inr a) => k a o
             end.

Notation "x <- m ;;; k" := (ui_bind m (fun x => k))
  (at level 61, m at next level, right associativity).

Definition ui_lift {A} (r : res A) : ui A :=
  match r with inl e => ui_raise (PyExn e) | inr a => ui_ret a end.

Fixpoint ui_iter {A} (f : A -> ui unit) (l : list A) : ui unit :=
  match l with
  | [] => ui_ret tt
  | a :: r => _ <- f a ;;; ui_iter f r
  end.

(** [st.columns(spec)]: an empty spec or a non-positive width raises. *)
Definition st_columns (spec : list Z) : ui unit :=
  if is_empty spec || existsb (fun w => w <=? 0) spec
  then ui_raise (StreamlitAPIException
         (u "The input argument to st.columns must be either a positive integer or a non-empty sequence of positive numbers."))
  else ui_emit (Columns spec).

(** [plot_metric_bars(df, col, title, y_label, decimals, target_col)] *)
Definition plot_metric_bars (df : frame) (col title y_label : pystr)
    (decimals : Z) (target_col : nat) : ui unit :=
  if negb (existsb (streq col) (fcolumns df)) then ui_ret tt else
  match index_of (u "Product") (fcolumns df), index_of col (fcolumns df) with
  | Some ip, Some ic =>
      (* df[["Product", col]].copy().dropna(subset=[col]) *)
      let mdf := filter (fun pc => negb (is_na (snd pc)))
                   (map (fun r => (nth ip r (CNum None), nth ic r (CNum None)))
                        (frows df)) in
      if is_empty mdf then ui_ret tt
      else ui_emit (Chart target_col (plotly_bar mdf col title y_label decimals)
                          true)
  | None, _ => ui_raise (KeyError (u "Product"))
  | _, None => ui_raise (KeyError col)
  end.

Definition show_sunscreen_comparison (comp : frame) : ui unit :=
  if frame_empty comp || (List.length (frows comp) <? 2)%nat then ui_ret tt else
  _ <- ui_emit (Markdown (u "### Comparison panel")) ;;;
  _ <- ui_emit (Caption (u "Comparing SPF (lab, UVB), UVA PF (lab), blue & visible lab measures, and cost per ml for selected sunscreens.")) ;;;
  _ <- st_columns [1; 1] ;;;
  _ <- plot_metric_bars comp (u "SPF_lab (UVB)")
         (u "SPF (lab) – UVB protection") (u "SPF (lab)") 1 0 ;;;
  _ <- plot_metric_bars comp (u "UVA_PF_lab")
         (u "UVA Protection (Lab) – PF") (u "UVA PF (lab)") 1 1 ;;;
  _ <- st_columns [1; 1] ;;;
  _ <- plot_metric_bars comp (u "Blue_light_lab")
         (u "Blue light Protection (lab)") (u "Value") 2 0 ;;;
  _ <- plot_metric_bars comp (u "Visible_lab")
         (u "Visible light Protection (lab)") (u "Value") 2 1 ;;;
  _ <- st_columns [1; 1] ;;;
  plot_metric_bars comp (u "Price_per_ml_£")
    (u "Price per ml (£)") (u "£ per ml") 3 0.

Definition show_clothing_comparison (comp : frame) : ui unit :=
  if frame_empty comp || (List.length (frows comp) <? 2)%nat then ui_ret tt else
  _ <- ui_emit (Markdown (u "### Comparison panel")) ;;;
  _ <- ui_emit (Caption (u "Comparing SPF (lab, UVB), UVA PF (lab), blue & visible lab measures, and total price (£) for selected garments.")) ;;;
  _ <- st_columns [1; 1] ;;;
  _ <- plot_metric_bars comp (u "SPF_lab (UVB)")
         (u "SPF (lab) – UVB protection") (u "SPF (lab)") 1 0 ;;;
  _ <- plot_metric_bars comp (u "UVA_PF_lab")
         (u "UVA Protection (Lab) – PF") (u "UVA PF (lab)") 1 1 ;;;
  _ <- st_columns [1; 1] ;;;
  _ <- plot_metric_bars comp (u "Blue_light_lab")
         (u "Blue light Protection (lab)") (u "Value") 2 0 ;;;
  _ <- plot_metric_bars comp (u "Visible_lab")
         (u "Visible light Protection (lab)") (u "Value") 2 1 ;;;
  _ <- st_columns [1; 1] ;;;
  plot_metric_bars comp (u "Price_£") (u "Price (£)") (u "£") 2 0.

(** ** Image strip: [show_product_images] (app.py, lines 308-341)

    Paths are POSIX [pathlib] paths: a root ([""], ["/"] or ["//"]) and the
    parts, without empty and ["."] parts. *)

Record path := mk_path {
  path_root : pystr;
  path_parts : list pystr
}.

(** [s.split(sep)] *)
Fixpoint split_on (sep : Z) (s : pystr) : list pystr :=
  match s with
  | [] => [[]]
  | c :: r =>
      if c =? sep then [] :: split_on sep r
      else match split_on sep r with
           | w :: ws => (c :: w) :: ws
           | [] => [[c]]
           end
  end.

(** [posixpath.splitroot]: root and relative part. *)
Definition splitroot (s : pystr) : pystr * pystr :=
  match s with
  | [] => ([], s)
  | c :: r =>
      if negb (c =? 47) then ([], s) else
      match r with
      | [] => ([47], r)
      | d :: r' =>
          if negb (d =? 47) then ([47], r) else
          match r' with
          | [] => ([47; 47], r')
          | e :: _ => if e =? 47 then ([47], r) else ([47; 47], r')
          end
      end
  end.

(** [PurePosixPath(s)] *)
Definition parse_path (s : pystr) : path :=
  let '(root, rel) := splitroot s in
  mk_path root (filter (fun x => negb (is_empty x) && negb (streq x (u ".")))
                       (split_on 47 rel)).

(** [base / ref]: an absolute [ref] replaces [base]. *)
Definition path_join (base : path) (ref : pystr) : path :=
  let p := parse_path ref in
  if is_empty (path_root p) then mk_path (path_root base) (path_parts base ++ path_parts p)
  else p.

(** [str(p)] *)
Definition path_str (p : path) : pystr :=
  if is_empty (path_root p) && is_empty (path_parts p) then u "."
  else path_root p ++ join (u "/") (path_parts p).

(** [s.startswith(prefix)] *)
Definition startswith (s pre : pystr) : bool :=
  streq (firstn (List.length pre) s) pre.

(** [img_ref] resolved to a URL or a path relative to the folder of
    app.py ([lower] is exact on the prefixes compared: no other code point
    lower-cases to a character of "http://" or "https://"). *)
Definition resolve_image (app_dir : path) (img_ref : pystr) : pystr :=
  if startswith (lower img_ref) (u "http://")
     || startswith (lower img_ref) (u "https://")
  then img_ref
  else path_str (path_join app_dir img_ref).

(** One step of the loop over [zip(cols, df_img.iterrows())];
    [image_ok p] tells whether [col_widget.image(p, ...)] succeeds. *)
Definition show_image (app_dir : path) (image_ok : pystr -> bool)
    (kind : pystr) (df : table) (cr : nat * list pystr) : ui unit :=
  let '(col_widget, r) := cr in
  let img_ref := strip (row_get (row_of df r) (u "Image") []) in
  if is_empty img_ref then ui_ret tt else
  let img_path := resolve_image app_dir img_ref in
  let label := make_label (row_of df r) kind in
  if image_ok img_path then ui_emit (Image col_widget img_path 120 label)
  else ui_emit (Write col_widget label).

Definition show_product_images (app_dir : path) (image_ok : pystr -> bool)
    (df : table) (kind : pystr) : ui unit :=
  if df_empty df || negb (existsb (streq (u "Image")) (columns df))
  then ui_ret tt else
  let img_rows := filter (fun r => negb (is_empty (strip (row_get (row_of df r)
                                                           (u "Image") []))))
                         (rows df) in
  if is_empty img_rows then ui_ret tt else
  _ <- ui_emit (Markdown (u "#### Product images")) ;;;
  _ <- st_columns (repeat 1 (List.length img_rows)) ;;;
  ui_iter (show_image app_dir image_ok kind df)
          (combine (seq 0 (List.length img_rows)) img_rows).

(** ** The tabs (app.py, lines 371-458) *)

Definition SUN_DISPLAY_COLS : list pystr :=
  [u "Product Brand"; u "Product Name"; u "Price (£)"; u "Volume (ml)";
   u "Price / ml"; u "SPF (lab)"; u "UVA Protection (Lab)";
   u "Blue Light Protection (lab)"; u "Visible Protection (lab)"; u "Image"].

Definition CLO_DISPLAY_COLS : list pystr :=
  [u "Product Brand"; u "Product Name"; u "Price (£)"; u "SPF (lab)";
   u "UVA Protection (Lab)"; u "Blue Light Protection (lab)";
   u "Visible Protection (lab)"; u "Image"].

(** The comparison plots of a tab: build, then show. *)
Definition sun_comparison_panel (view : table) : ui unit :=
  recs <- ui_lift (build_sunscreen_comparison view) ;;;
  show_sunscreen_comparison (sun_frame recs).

Definition cloth_comparison_panel (view : table) : ui unit :=
  recs <- ui_lift (build_clothing_comparison view) ;;;
  show_clothing_comparison (cloth_frame recs).

(** What differs between the two tabs. *)
Record tab_spec := mk_tab_spec {
  ts_kind : pystr;
  ts_info : pystr;
  ts_select_label : pystr;
  ts_select_key : pystr;
  ts_toggle_label : pystr;
  ts_toggle_key : pystr;
  ts_panel : table -> ui unit;
  ts_display_cols : list pystr
}.

Definition sun_tab : tab_spec :=
  mk_tab_spec (u "sun") sun_info (u "Choose up to 3 products to compare:")
    (u "sun_select") (u "Show all products (ignore selection)") (u "sun_show_all")
    sun_comparison_panel SUN_DISPLAY_COLS.

Definition cloth_tab : tab_spec :=
  mk_tab_spec (u "cloth") cloth_info (u "Choose up to 3 garments to compare:")
    (u "cloth_select") (u "Show all garments (ignore selection)")
    (u "cloth_show_all") cloth_comparison_panel CLO_DISPLAY_COLS.

(** The body of [with tab1:] / [with tab2:]; [chosen] and [show_all] are
    what the multiselect and the toggle return. *)
Definition render_tab (ts : tab_spec) (app_dir : path) (image_ok : pystr -> bool)
    (t : table) (chosen : list pystr) (show_all : bool) : ui unit :=
  if df_empty t then ui_emit (Info (ts_info ts)) else
  let labels := labels_of t (ts_kind ts) in
  _ <- st_columns [2; 1] ;;;
  _ <- ui_emit (Multiselect 0 (ts_select_label ts) labels 3 (ts_select_key ts)) ;;;
  _ <- ui_emit (Toggle 1 (ts_toggle_label ts) false (ts_toggle_key ts)) ;;;
  let view := if show_all then t else loc_mask t (isin labels chosen) in
  _ <- (if negb show_all && (1 <? List.length (rows view))%nat
          && (List.length (rows view) <=? 3)%nat
        then ts_panel ts view else ui_ret tt) ;;;
  _ <- show_product_images app_dir image_ok view (ts_kind ts) ;;;
  ui_emit (DataFrameEl (safe_select_columns view (ts_display_cols ts)) true true).

(** The chart [plot_metric_bars] draws for the (label, value) pairs of a
    metric: the pairs whose value is neither [None] nor NaN, in order; no
    chart when there is none. *)
Definition metric_chart (target : nat) (col title y_label : pystr) (decimals : Z)
    (pts : list (pystr * option f64)) : list element :=
  let kept := filter (fun pv => negb (is_na (CNum (snd pv)))) pts in
  if is_empty kept then []
  else [Chart target (plotly_bar (map (fun pv => (CText (fst pv), CNum (snd pv))) kept)
                        col title y_label decimals) true].

Definition sun_points (get : sun_record -> option f64) (recs : list sun_record)
  : list (pystr * option f64) :=
  map (fun r => (sun_product r, get r)) recs.

Definition cloth_points (get : cloth_record -> option f64) (recs : list cloth_record)
  : list (pystr * option f64) :=
  map (fun r => (cloth_product r, get r)) recs.

(** The page content of the sunscreen comparison panel. *)
Definition sun_panel_elements (recs : list sun_record) : list element :=
  [Markdown (u "### Comparison panel");
   Caption (u "Comparing SPF (lab, UVB), UVA PF (lab), blue & visible lab measures, and cost per ml for selected sunscreens.");
   Columns [1; 1]]
  ++ metric_chart 0 (u "SPF_lab (UVB)") (u "SPF (lab) – UVB protection")
       (u "SPF (lab)") 1 (sun_points sun_spf_lab recs)
  ++ metric_chart 1 (u "UVA_PF_lab") (u "UVA Protection (Lab) – PF")
       (u "UVA PF (lab)") 1 (sun_points sun_uva_pf_lab recs)
  ++ [Columns [1; 1]]
  ++ metric_chart 0 (u "Blue_light_lab") (u "Blue light Protection (lab)")
       (u "Value") 2 (sun_points sun_blue_light_lab recs)
  ++ metric_chart 1 (u "Visible_lab") (u "Visible light Protection (lab)")
       (u "Value") 2 (sun_points sun_visible_lab recs)
  ++ [Columns [1; 1]]
  ++ metric_chart 0 (u "Price_per_ml_£") (u "Price per ml (£)")
       (u "£ per ml") 3 (sun_points sun_price_per_ml recs).

Definition cloth_panel_elements (recs : list cloth_record) : list element :=
  [Markdown (u "### Comparison panel");
   Caption (u "Comparing SPF (lab, UVB), UVA PF (lab), blue & visible lab measures, and total price (£) for selected garments.");
   Columns [1; 1]]
  ++ metric_chart 0 (u "SPF_lab (UVB)") (u "SPF (lab) – UVB protection")
       (u "SPF (lab)") 1 (cloth_points cloth_spf_lab recs)
  ++ metric_chart 1 (u "UVA_PF_lab") (u "UVA Protection (Lab) – PF")
       (u "UVA PF (lab)") 1 (cloth_points cloth_uva_pf_lab recs)
  ++ [Columns [1; 1]]
  ++ metric_chart 0 (u "Blue_light_lab") (u "Blue light Protection (lab)")
       (u "Value") 2 (cloth_points cloth_blue_light_lab recs)
  ++ metric_chart 1 (u "Visible_lab") (u "Visible light Protection (lab)")
       (u "Value") 2 (cloth_points cloth_visible_lab recs)
  ++ [Columns [1; 1]]
  ++ metric_chart 0 (u "Price_£") (u "Price (£)") (u "£") 2
       (cloth_points cloth_price recs).

(** * Lemmas *)

Lemma streq_true (a b : pystr) : streq a b = true <-> a = b.
Proof.
  unfold streq; destruct (list_eq_dec Z.eq_dec a b); split; congruence.
Qed.

Lemma streq_refl (a : pystr) : streq a a = true.
Proof. apply streq_true; reflexivity. Qed.

Lemma streq_head (c d : Z) (a b : pystr) :
  c <> d -> streq (c :: a) (d :: b) = false.
Proof.
  intros H; destruct (streq (c :: a) (d :: b)) eqn:E; [|reflexivity].
  apply streq_true in E; congruence.
Qed.

Lemma drop_while_stop (p : Z -> bool) (c : Z) (s : pystr) :
  p c = false -> drop_while p (c :: s) = c :: s.
Proof. intros H; simpl; rewrite H; reflexivity. Qed.

(** Stripping leaves a text alone whose ends are not stripped. *)
Lemma strip_chars_id (p : Z -> bool) (c : Z) (r : pystr) :
  p c = false ->
  (forall d r', rev (c :: r) = d :: r' -> p d = false) ->
  strip_chars p (c :: r) = c :: r.
Proof.
  intros Hc Hd; unfold strip_chars.
  rewrite drop_while_stop by exact Hc.
  destruct (rev (c :: r)) as [|d r'] eqn:E.
  - apply (f_equal (@rev Z)) in E; rewrite rev_involutive in E; discriminate.
  - rewrite drop_while_stop by (eapply Hd; reflexivity).
    rewrite <- E, rev_involutive; reflexivity.
Qed.

Lemma take_while_app (p : Z -> bool) (l r : pystr) :
  forallb p l = true -> take_while p (l ++ r) = l ++ take_while p r.
Proof.
  induction l as [|c l IH]; simpl; [reflexivity|].
  intros H; apply andb_prop in H as [H1 H2]; rewrite H1, IH; auto.
Qed.

Lemma drop_while_app (p : Z -> bool) (l r : pystr) :
  forallb p l = true -> drop_while p (l ++ r) = drop_while p r.
Proof.
  induction l as [|c l IH]; simpl; [reflexivity|].
  intros H; apply andb_prop in H as [H1 H2]; rewrite H1, IH; auto.
Qed.

(** [float(s)] only ever raises [ValueError]. *)
Lemma py_float_value_error (s : pystr) (e : exn) :
  py_float s = inl e -> exists msg, e = ValueError msg.
Proof.
  unfold py_float, raise, ret.
  destruct (existsb (Z.eqb 95) s && negb (underscores_ok 0 s)).
  - intros H; inversion H; eauto.
  - destruct (parse_float_body _); intros H; inversion H; eauto.
Qed.

(** [to_float], unfolded: the three stages of the source. *)
Lemma to_float_some (v : pystr) :
  to_float (Some v) =
  (let s := strip v in
   if is_empty s || is_na_marker (lower s) then inr None
   else inr (match py_float (strip_annotations s) with
             | inr f => Some f
             | inl _ => None
             end)).
Proof.
  cbv zeta; unfold to_float.
  replace ((List.length (strip v) =? 0)%nat) with (is_empty (strip v))
    by (destruct (strip v); reflexivity).
  destruct (is_empty (strip v) || is_na_marker (lower (strip v))); [reflexivity|].
  destruct (py_float (strip_annotations (strip v))) as [e|f] eqn:E; [|reflexivity].
  apply py_float_value_error in E as [msg ->]; reflexivity.
Qed.

Lemma is_digit_cases (d : Z) :
  is_digit d = true ->
  d = 48 \/ d = 49 \/ d = 50 \/ d = 51 \/ d = 52 \/ d = 53 \/ d = 54
  \/ d = 55 \/ d = 56 \/ d = 57.
Proof.
  unfold is_digit; intros H; apply andb_prop in H as [H1 H2].
  apply Z.leb_le in H1; apply Z.leb_le in H2; lia.
Qed.

Ltac digit_cases H := apply is_digit_cases in H; decompose [or] H; subst.

Definition lit_char (c : Z) : bool := is_digit c || (c =? 45) || (c =? 46).

Lemma lower_lit (s : pystr) : forallb lit_char s = true -> lower s = s.
Proof.
  induction s as [|c s IH]; [reflexivity|]; simpl.
  intros H; apply andb_prop in H as [H1 H2]; rewrite (IH H2).
  unfold lit_char in H1; apply orb_prop in H1 as [H1|H1];
    [apply orb_prop in H1 as [H1|H1]|].
  - digit_cases H1; reflexivity.
  - apply Z.eqb_eq in H1; subst; reflexivity.
  - apply Z.eqb_eq in H1; subst; reflexivity.
Qed.

Lemma no_underscore_lit (s : pystr) :
  forallb lit_char s = true -> existsb (Z.eqb 95) s = false.
Proof.
  induction s as [|c s IH]; [reflexivity|]; simpl.
  intros H; apply andb_prop in H as [H1 H2]; rewrite (IH H2), orb_false_r.
  unfold lit_char in H1; apply orb_prop in H1 as [H1|H1];
    [apply orb_prop in H1 as [H1|H1]|].
  - digit_cases H1; reflexivity.
  - apply Z.eqb_eq in H1; subst; reflexivity.
  - apply Z.eqb_eq in H1; subst; reflexivity.
Qed.

Lemma filter_all {A} (p : A -> bool) (l : list A) :
  forallb p l = true -> filter p l = l.
Proof.
  induction l as [|a l IH]; simpl; [reflexivity|].
  intros H; apply andb_prop in H as [H1 H2]; rewrite H1, IH; auto.
Qed.

Lemma no_underscore_filter (s : pystr) :
  existsb (Z.eqb 95) s = false -> filter (fun c => negb (c =? 95)) s = s.
Proof.
  intros H; apply filter_all.
  induction s as [|c s IH]; [reflexivity|]; cbn [existsb forallb] in *.
  apply orb_false_iff in H as [H1 H2]; rewrite Z.eqb_sym, H1; simpl; auto.
Qed.

Lemma rev_digits (l : pystr) :
  l <> [] -> forallb is_digit l = true ->
  exists d r, rev l = d :: r /\ is_digit d = true.
Proof.
  intros Hne Hd; destruct (rev l) as [|d r] eqn:E.
  - apply (f_equal (@rev Z)) in E; rewrite rev_involutive in E; contradiction.
  - exists d, r; split; [reflexivity|].
    rewrite forallb_forall in Hd; apply Hd, in_rev; rewrite E; left; reflexivity.
Qed.

Lemma decimal_literal_last (neg : bool) (ip fp : pystr) :
  ip <> [] -> forallb is_digit ip = true -> forallb is_digit fp = true ->
  exists d r, rev (decimal_literal neg ip fp) = d :: r /\ is_digit d = true.
Proof.
  intros Hne Hip Hfp; unfold decimal_literal.
  destruct fp as [|f fp'] eqn:Efp; simpl is_empty; cbv iota.
  - rewrite app_nil_r, rev_app_distr.
    destruct (rev_digits ip Hne Hip) as (d & r & E & Hd); rewrite E.
    exists d, (r ++ rev (if neg then [45] else [])); auto.
  - rewrite <- Efp.
    change (46 :: fp) with ([46] ++ fp).
    rewrite !rev_app_distr.
    assert (fp <> []) by (rewrite Efp; discriminate).
    destruct (rev_digits fp H ltac:(rewrite Efp; exact Hfp)) as (d & r & E & Hd); rewrite E.
    eexists d, _; split; [reflexivity|exact Hd].
Qed.

Lemma decimal_literal_lit (neg : bool) (ip fp : pystr) :
  forallb is_digit ip = true -> forallb is_digit fp = true ->
  forallb lit_char (decimal_literal neg ip fp) = true.
Proof.
  assert (G : forall l, forallb is_digit l = true -> forallb lit_char l = true).
  { induction l as [|c l IH]; simpl; [reflexivity|].
    intros H; apply andb_prop in H as [H1 H2].
    unfold lit_char at 1; rewrite H1, IH; auto. }
  intros Hip Hfp; unfold decimal_literal.
  rewrite !forallb_app, (G ip Hip).
  destruct neg, (is_empty fp); simpl; rewrite ?(G fp Hfp); auto.
Qed.

Lemma u_na : u "na" = [110; 97]. Proof. reflexivity. Qed.
Lemma u_n_a : u "n/a" = [110; 47; 97]. Proof. reflexivity. Qed.
Lemma u_none : u "none" = [110; 111; 110; 101]. Proof. reflexivity. Qed.
Lemma u_inf : u "inf" = [105; 110; 102]. Proof. reflexivity. Qed.
Lemma u_infinity : u "infinity" = [105; 110; 102; 105; 110; 105; 116; 121].
Proof. reflexivity. Qed.
Lemma u_nan : u "nan" = [110; 97; 110]. Proof. reflexivity. Qed.

Lemma is_space_lit (c : Z) : lit_char c = true -> is_space c = false.
Proof.
  unfold lit_char; intros H1; apply orb_prop in H1 as [H1|H1];
    [apply orb_prop in H1 as [H1|H1]|].
  - digit_cases H1; reflexivity.
  - apply Z.eqb_eq in H1; subst; reflexivity.
  - apply Z.eqb_eq in H1; subst; reflexivity.
Qed.

Lemma strip_decimal (neg : bool) (ip fp : pystr) :
  ip <> [] -> forallb is_digit ip = true -> forallb is_digit fp = true ->
  strip (decimal_literal neg ip fp) = decimal_literal neg ip fp.
Proof.
  intros Hne Hip Hfp.
  pose proof (decimal_literal_lit neg ip fp Hip Hfp) as Hl.
  destruct (decimal_literal_last neg ip fp Hne Hip Hfp) as (d & r & Er & Hd).
  destruct (decimal_literal neg ip fp) as [|h t]; [reflexivity|].
  unfold strip; apply strip_chars_id.
  - apply is_space_lit; simpl in Hl; apply andb_prop in Hl; tauto.
  - intros d' r' E; rewrite Er in E; inversion E; subst.
    apply is_space_lit; unfold lit_char; rewrite Hd; reflexivity.
Qed.

Lemma marker_decimal (neg : bool) (ip fp : pystr) :
  ip <> [] -> forallb is_digit ip = true ->
  is_na_marker (decimal_literal neg ip fp) = false.
Proof.
  intros Hne Hip; destruct ip as [|c ip']; [contradiction|].
  simpl in Hip; apply andb_prop in Hip as [Hc _].
  unfold is_na_marker, decimal_literal; rewrite u_na, u_n_a, u_none.
  destruct neg; simpl.
  - rewrite !streq_head by lia; reflexivity.
  - digit_cases Hc; rewrite !streq_head by lia; reflexivity.
Qed.

Lemma strip_annotations_decimal (neg : bool) (ip fp : pystr) :
  ip <> [] -> forallb is_digit ip = true -> forallb is_digit fp = true ->
  strip_annotations (decimal_literal neg ip fp) = decimal_literal neg ip fp.
Proof.
  intros Hne Hip Hfp.
  destruct (decimal_literal_last neg ip fp Hne Hip Hfp) as (d & r & Er & Hd).
  unfold strip_annotations, endswith; rewrite Er.
  digit_cases Hd; cbv [Z.eqb Pos.eqb]; rewrite Er; reflexivity.
Qed.

Lemma take_while_all (p : Z -> bool) (l : pystr) :
  forallb p l = true -> take_while p l = l.
Proof. intros H; rewrite <- (app_nil_r l) at 1; rewrite take_while_app by exact H.
  apply app_nil_r. Qed.

Lemma drop_while_all (p : Z -> bool) (l : pystr) :
  forallb p l = true -> drop_while p l = [].
Proof. intros H; rewrite <- (app_nil_r l); rewrite drop_while_app by exact H.
  reflexivity. Qed.

Lemma f64_of_decimal_frac (neg : bool) (M k L : Z) :
  0 <= k <= L -> f64_of_decimal neg M (0 - k) L = round_binary64 neg M (10 ^ k).
Proof.
  intros Hk; unfold f64_of_decimal.
  destruct (M =? 0) eqn:HM.
  - apply Z.eqb_eq in HM; subst; reflexivity.
  - rewrite (proj2 (Z.leb_gt 400 (0 - k))) by lia.
    rewrite (proj2 (Z.leb_gt (0 - k) (- (L + 400)))) by lia.
    destruct (0 <=? 0 - k) eqn:E.
    + apply Z.leb_le in E; replace k with 0 by lia.
      rewrite Z.mul_1_r; reflexivity.
    + replace (- (0 - k)) with k by lia; reflexivity.
Qed.

Definition first_digit (l : pystr) : bool :=
  match l with c :: _ => is_digit c | [] => false end.

Lemma streq_first_digit (a b : pystr) :
  first_digit a = true -> first_digit b = false -> streq a b = false.
Proof.
  intros Ha Hb; destruct (streq a b) eqn:E; [|reflexivity].
  apply streq_true in E; subst; congruence.
Qed.

Lemma parse_unsigned_decimal (neg : bool) (ip fp : pystr) :
  ip <> [] -> forallb is_digit ip = true -> forallb is_digit fp = true ->
  parse_unsigned neg (ip ++ (if is_empty fp then [] else 46 :: fp)) =
  Some (round_binary64 neg (digits_value (ip ++ fp)) (10 ^ Z.of_nat (List.length fp))).
Proof.
  intros Hne Hip Hfp.
  assert (Hfd : first_digit (ip ++ (if is_empty fp then [] else 46 :: fp)) = true).
  { destruct ip as [|c ip']; [contradiction|]; simpl in Hip |- *.
    apply andb_prop in Hip; tauto. }
  unfold parse_unsigned.
  rewrite lower_lit
    by exact (decimal_literal_lit false ip fp Hip Hfp).
  rewrite (streq_first_digit _ (u "inf")), (streq_first_digit _ (u "infinity")),
    (streq_first_digit _ (u "nan")) by (exact Hfd || reflexivity).
  cbn [orb].
  rewrite take_while_app, drop_while_app by exact Hip.
  assert (Hlen : (List.length (ip ++ fp) =? 0)%nat = false).
  { destruct ip; [contradiction|]; reflexivity. }
  destruct fp as [|f fp'].
  - cbn [is_empty take_while drop_while]; rewrite !app_nil_r.
    rewrite app_nil_r in Hlen; rewrite Hlen.
    f_equal; apply (f64_of_decimal_frac neg _ 0); lia.
  - cbn [is_empty take_while drop_while].
    replace (is_digit 46) with false by reflexivity.
    rewrite app_nil_r.
    rewrite take_while_all, drop_while_all by exact Hfp.
    rewrite Hlen; f_equal.
    apply f64_of_decimal_frac; rewrite length_app; lia.
Qed.

Lemma split_sign_digit (l : pystr) :
  first_digit l = true -> split_sign l = (false, l).
Proof.
  destruct l as [|c l]; simpl; [discriminate|].
  intros Hc; digit_cases Hc; reflexivity.
Qed.

Lemma py_float_decimal (neg : bool) (ip fp : pystr) :
  ip <> [] -> forallb is_digit ip = true -> forallb is_digit fp = true ->
  py_float (decimal_literal neg ip fp) =
  inr (round_binary64 neg (digits_value (ip ++ fp)) (10 ^ Z.of_nat (List.length fp))).
Proof.
  intros Hne Hip Hfp.
  pose proof (decimal_literal_lit neg ip fp Hip Hfp) as Hl.
  unfold py_float; rewrite no_underscore_lit by exact Hl; cbn [andb].
  rewrite no_underscore_filter by (apply no_underscore_lit; exact Hl).
  rewrite strip_decimal by assumption.
  unfold parse_float_body.
  assert (Hfd : first_digit (ip ++ (if is_empty fp then [] else 46 :: fp)) = true).
  { destruct ip as [|c ip']; [contradiction|]; simpl in Hip |- *.
    apply andb_prop in Hip; tauto. }
  unfold decimal_literal; destruct neg.
  - cbn [app split_sign]; rewrite Z.eqb_refl.
    rewrite parse_unsigned_decimal by assumption; reflexivity.
  - cbn [app]; rewrite split_sign_digit by exact Hfd.
    rewrite parse_unsigned_decimal by assumption; reflexivity.
Qed.

Lemma to_float_no_raise (value : option pystr) : exists o, to_float value = inr o.
Proof.
  destruct value as [v|]; [|exists None; reflexivity].
  rewrite to_float_some; cbv zeta.
  destruct (is_empty (strip v) || is_na_marker (lower (strip v))); eauto.
Qed.

Lemma to_float_decimal (neg : bool) (ip fp : pystr) :
  ip <> [] -> forallb is_digit ip = true -> forallb is_digit fp = true ->
  to_float (Some (decimal_literal neg ip fp)) =
  inr (Some (round_binary64 neg (digits_value (ip ++ fp))
                            (10 ^ Z.of_nat (List.length fp)))).
Proof.
  intros Hne Hip Hfp.
  rewrite to_float_some; cbv zeta.
  rewrite strip_decimal by assumption.
  rewrite lower_lit by (apply decimal_literal_lit; assumption).
  rewrite marker_decimal by assumption.
  replace (is_empty (decimal_literal neg ip fp)) with false
    by (destruct ip; [contradiction|]; destruct neg; reflexivity).
  rewrite strip_annotations_decimal, py_float_decimal by assumption.
  reflexivity.
Qed.

Lemma to_float_cell (r : row) (col : pystr) :
  to_float (Some (row_get r col [])) = inr (cell_float r col).
Proof.
  unfold cell_float; destruct (to_float_no_raise (Some (row_get r col [])))
    as [o E]; rewrite E; reflexivity.
Qed.

Lemma py_div_nonzero (a b : f64) :
  f64_is_zero b = false -> exists q, py_div a b = inr q.
Proof.
  intros H; unfold py_div; rewrite H.
  destruct a, b; eexists; reflexivity.
Qed.

(** What [price_per_ml] ends up as, given the parsed price and volume. *)
Definition ppm_ok (price vol ppm : option f64) : Prop :=
  match price, vol with
  | Some p, Some v =>
      if f64_is_zero v then ppm = None
      else exists q, py_div p v = inr q /\ ppm = Some q
  | _, _ => ppm = None
  end.

Lemma price_per_ml_of_ok (price vol : option f64) :
  exists ppm, price_per_ml_of price vol = inr ppm /\ ppm_ok price vol ppm.
Proof.
  unfold price_per_ml_of, ppm_ok.
  destruct price as [p|], vol as [v|]; try (exists None; split; reflexivity).
  destruct (f64_is_zero v) eqn:Z0; [exists None; split; reflexivity|].
  destruct (py_div_nonzero p v Z0) as [q E]; rewrite E.
  exists (Some q); split; [reflexivity|]; eauto.
Qed.

Lemma sun_row_ok (r : row) :
  exists rec, sun_row r = inr rec /\
    sun_product rec = make_label r (u "sun") /\
    sun_spf_lab rec = cell_float r col_spf_lab /\
    sun_uva_pf_lab rec = cell_float r col_uva_lab /\
    sun_blue_light_lab rec = cell_float r col_bl_lab /\
    sun_visible_lab rec = cell_float r col_vis_lab /\
    ppm_ok (cell_float r col_price) (cell_float r col_vol) (sun_price_per_ml rec).
Proof.
  unfold sun_row; rewrite !to_float_cell; cbn [bind ret].
  destruct (price_per_ml_of_ok (cell_float r col_price) (cell_float r col_vol))
    as [ppm [E H]]; rewrite E; cbn [bind ret].
  eexists; split; [reflexivity|]; simpl; auto 7.
Qed.

Lemma cloth_row_ok (r : row) :
  exists rec, cloth_row r = inr rec /\
    cloth_product rec = make_label r (u "cloth") /\
    cloth_spf_lab rec = cell_float r col_spf_lab /\
    cloth_uva_pf_lab rec = cell_float r col_uva_lab /\
    cloth_blue_light_lab rec = cell_float r col_bl_lab /\
    cloth_visible_lab rec = cell_float r col_vis_lab /\
    cloth_price rec = cell_float r col_price.
Proof.
  unfold cloth_row; rewrite !to_float_cell; cbn [bind ret].
  eexists; split; [reflexivity|]; simpl; auto 7.
Qed.

Lemma mapM_Forall2 {A B} (f : A -> res B) (P : A -> B -> Prop) (l : list A) :
  (forall a, exists b, f a = inr b /\ P a b) ->
  exists bs, mapM f l = inr bs /\ Forall2 P l bs.
Proof.
  intros Hf; induction l as [|a l IH].
  - exists []; split; [reflexivity|constructor].
  - destruct (Hf a) as [b [Eb Pb]]; destruct IH as [bs [Ebs Pbs]].
    exists (b :: bs); simpl; rewrite Eb; simpl; rewrite Ebs; split;
      [reflexivity|constructor; assumption].
Qed.

Lemma Forall2_nth_l {A B} (P : A -> B -> Prop) (l : list A) (bs : list B) i a :
  Forall2 P l bs -> nth_error l i = Some a ->
  exists b, nth_error bs i = Some b /\ P a b.
Proof.
  intros H; revert i; induction H as [|x y l bs Pxy H IH]; intros [|i] E;
    simpl in E; try discriminate.
  - inversion E; subst; exists y; auto.
  - apply IH; exact E.
Qed.

Lemma Forall2_nth_r {A B} (P : A -> B -> Prop) (l : list A) (bs : list B) i b :
  Forall2 P l bs -> nth_error bs i = Some b ->
  exists a, nth_error l i = Some a /\ P a b.
Proof.
  intros H; revert i; induction H as [|x y l bs Pxy H IH]; intros [|i] E;
    simpl in E; try discriminate.
  - inversion E; subst; exists x; auto.
  - apply IH; exact E.
Qed.

Lemma nth_error_map_row (df : table) i r :
  nth_error (rows df) i = Some r ->
  nth_error (map (row_of df) (rows df)) i = Some (row_of df r).
Proof. intros E; rewrite nth_error_map, E; reflexivity. Qed.

Lemma nth_error_map_row_inv (df : table) i x :
  nth_error (map (row_of df) (rows df)) i = Some x ->
  exists r, nth_error (rows df) i = Some r /\ x = row_of df r.
Proof.
  rewrite nth_error_map; destruct (nth_error (rows df) i); simpl;
    intros E; inversion E; eauto.
Qed.

Lemma streq_sym (a b : pystr) : streq a b = streq b a.
Proof.
  destruct (streq a b) eqn:E, (streq b a) eqn:F; auto.
  - apply streq_true in E; subst; rewrite streq_refl in F; discriminate.
  - apply streq_true in F; subst; rewrite streq_refl in E; discriminate.
Qed.

Lemma existsb_streq_in (c : pystr) (cols : list pystr) :
  existsb (streq c) cols = true <-> In c cols.
Proof.
  rewrite existsb_exists; split.
  - intros (x & Hx & E); apply streq_true in E; subst; exact Hx.
  - intros H; exists c; split; [exact H|apply streq_refl].
Qed.

Lemma positions_from_S (n : nat) (c : pystr) (cols : list pystr) :
  positions_from (S n) c cols = map S (positions_from n c cols).
Proof.
  revert n; induction cols as [|x cols IH]; intros n; simpl; [reflexivity|].
  destruct (streq x c); simpl; rewrite IH; reflexivity.
Qed.

Lemma positions_from_none (n : nat) (c : pystr) (cols : list pystr) :
  ~ In c cols -> positions_from n c cols = [].
Proof.
  revert n; induction cols as [|x cols IH]; intros n H; simpl; [reflexivity|].
  destruct (streq x c) eqn:E.
  - apply streq_true in E; subst; exfalso; apply H; left; reflexivity.
  - apply IH; intros Hc; apply H; right; exact Hc.
Qed.

(** With distinct column names a present column sits at one position,
    whose cell is the one the row maps the name to. *)
Lemma positions_unique (cols : list pystr) (c : pystr) :
  NoDup cols -> In c cols ->
  exists k, positions c cols = [k] /\
            forall r, nth k r [] = row_get (combine cols r) c [].
Proof.
  induction cols as [|x cols IH]; intros Hnd Hin; [destruct Hin|].
  apply NoDup_cons_iff in Hnd as [Hx Hnd].
  unfold positions; simpl positions_from.
  destruct (streq x c) eqn:E.
  - apply streq_true in E; subst x.
    rewrite positions_from_none by exact Hx.
    exists 0%nat; split; [reflexivity|].
    intros [|v r]; unfold row_get; simpl; [reflexivity|].
    rewrite streq_refl; reflexivity.
  - assert (Hin' : In c cols).
    { destruct Hin as [H|H]; [subst; rewrite streq_refl in E; discriminate|exact H]. }
    destruct (IH Hnd Hin') as (k & Hk & Hr).
    rewrite positions_from_S; unfold positions in Hk; rewrite Hk.
    exists (S k); split; [reflexivity|].
    intros [|v r]; unfold row_get; simpl.
    + destruct k; reflexivity.
    + rewrite E; apply Hr.
Qed.

Lemma select_columns_names (cols l : list pystr) :
  NoDup cols -> (forall c, In c l -> In c cols) ->
  flat_map (fun c => map (fun _ => c) (positions c cols)) l = l.
Proof.
  intros Hnd; induction l as [|c l IH]; intros Hl; [reflexivity|].
  simpl; destruct (positions_unique cols c Hnd (Hl c (or_introl eq_refl)))
    as (k & Hk & _).
  rewrite Hk, IH; [reflexivity|]; intros; apply Hl; right; assumption.
Qed.

Lemma select_columns_cells (cols l : list pystr) (r : list pystr) :
  NoDup cols -> (forall c, In c l -> In c cols) ->
  flat_map (fun c => map (fun i => nth i r []) (positions c cols)) l =
  map (fun c => row_get (combine cols r) c []) l.
Proof.
  intros Hnd; induction l as [|c l IH]; intros Hl; [reflexivity|].
  simpl; destruct (positions_unique cols c Hnd (Hl c (or_introl eq_refl)))
    as (k & Hk & Hr).
  rewrite Hk, IH; simpl; [rewrite Hr; reflexivity|].
  intros; apply Hl; right; assumption.
Qed.

Lemma mask_filter_map {A} (f : A -> bool) (l : list A) :
  mask_filter (map f l) l = filter f l.
Proof.
  induction l as [|a l IH]; simpl; [reflexivity|].
  destruct (f a); rewrite IH; reflexivity.
Qed.

Lemma key_eqb_true (a b : pystr * pystr) : key_eqb a b = true <-> a = b.
Proof.
  destruct a as [a1 a2], b as [b1 b2]; unfold key_eqb; simpl.
  rewrite andb_true_iff, !streq_true; split.
  - intros [-> ->]; reflexivity.
  - intros E; inversion E; auto.
Qed.

(** What a cached load returns depends on the files and the cache only. *)
Lemma cached_load_sheet_result (w : world) (path sheet : pystr) :
  snd (cached_load_sheet w path sheet) =
  match assoc key_eqb (path, sheet) (cache w) with
  | Some t => inr t
  | None => load_sheet (fs w) path sheet
  end.
Proof.
  unfold cached_load_sheet.
  destruct (assoc key_eqb (path, sheet) (cache w)); [reflexivity|].
  destruct (load_sheet (fs w) path sheet); reflexivity.
Qed.

(** A load of one sheet leaves the result of loading another unchanged. *)
Lemma cached_load_other_sheet (w : world) (path s s' : pystr) :
  streq s' s = false ->
  snd (cached_load_sheet (fst (cached_load_sheet w path s)) path s') =
  snd (cached_load_sheet w path s').
Proof.
  intros Hs; rewrite !cached_load_sheet_result.
  unfold cached_load_sheet.
  destruct (assoc key_eqb (path, s) (cache w)); [reflexivity|].
  destruct (load_sheet (fs w) path s); [reflexivity|]; simpl.
  unfold key_eqb at 1; simpl; rewrite Hs, andb_false_r; reflexivity.
Qed.

(** Once cached, an entry stays in the cache. *)
Lemma cache_entry_kept (w w' : world) (k : pystr * pystr) (t : table) :
  reachable w w' -> assoc key_eqb k (cache w) = Some t ->
  assoc key_eqb k (cache w') = Some t.
Proof.
  induction 1 as [w|w path sheet w' R IH|w fs' w' R IH]; intros Hk.
  - exact Hk.
  - apply IH; unfold cached_load_sheet.
    destruct (assoc key_eqb (path, sheet) (cache w)) eqn:E; [exact Hk|].
    destruct (load_sheet (fs w) path sheet); [exact Hk|]; simpl.
    destruct (key_eqb k (path, sheet)) eqn:K; [|exact Hk].
    apply key_eqb_true in K; subst; congruence.
  - apply IH; exact Hk.
Qed.

(** * Claims *)

(** C2: [to_float] strips whitespace, maps the case-insensitive literals
    "", "na", "n/a" and "none" to absent, strips one trailing "+" and then
    one trailing "%", and otherwise returns [float] of the remainder (absent
    when that raises).  On a decimal-formatted text [-?d+(.d+)?] it returns
    the numeric value of the text (rounded to the nearest double, as
    [float] does); "50+" gives 50.0, "12%" gives 12.0, and "", "N/A", "na",
    "abc" give absent. *)
Theorem to_float_spec :
  (forall v, to_float (Some v) =
     (let s := strip v in
      if is_empty s || is_na_marker (lower s) then inr None
      else inr (match py_float (strip_annotations s) with
                | inr f => Some f
                | inl _ => None
                end)))
  /\ (forall neg ip fp,
        ip <> [] -> forallb is_digit ip = true -> forallb is_digit fp = true ->
        to_float (Some (decimal_literal neg ip fp)) =
        inr (Some (round_binary64 neg (digits_value (ip ++ fp))
                                  (10 ^ Z.of_nat (List.length fp)))))
  /\ to_float (Some (u "50+")) = inr (Some (round_binary64 false 50 1))
  /\ to_float (Some (u "12%")) = inr (Some (round_binary64 false 12 1))
  /\ to_float (Some (u "")) = inr None
  /\ to_float (Some (u "N/A")) = inr None
  /\ to_float (Some (u "na")) = inr None
  /\ to_float (Some (u "abc")) = inr None.
Proof.
  split; [exact to_float_some|].
  split; [exact to_float_decimal|].
  repeat split; vm_compute; reflexivity.
Qed.

Lemma to_float_spec_witness :
  forallb is_digit (u "12") = true /\ forallb is_digit (u "5") = true /\
  to_float (Some (decimal_literal true (u "12") (u "5"))) =
  inr (Some (round_binary64 true 125 10)).
Proof.
  split; [reflexivity|]; split; [reflexivity|].
  exact (proj1 (proj2 to_float_spec) true (u "12") (u "5")
           ltac:(discriminate) eq_refl eq_refl).
Defined.

(** C6: [to_float] never raises, for any input (including [None]); a text
    whose remainder fails [float] after the suffix stripping yields absent. *)
Theorem to_float_never_raises :
  (forall value, exists o, to_float value = inr o)
  /\ (forall v e, py_float (strip_annotations (strip v)) = inl e ->
                  to_float (Some v) = inr None).
Proof.
  split; [exact to_float_no_raise|].
  intros v e He; rewrite to_float_some; cbv zeta; rewrite He.
  destruct (_ || _); reflexivity.
Qed.

Lemma to_float_never_raises_witness :
  py_float (strip_annotations (strip (u " abc% "))) =
    inl (ValueError (u "could not convert string to float: abc")) /\
  to_float (Some (u " abc% ")) = inr None.
Proof.
  split; [vm_compute; reflexivity|].
  apply (proj2 to_float_never_raises _ (ValueError (u "could not convert string to float: abc"))).
  vm_compute; reflexivity.
Defined.

(** C1: every record that [build_sunscreen_comparison] emits (it never
    raises) belongs to the input row at the same position, and its
    price-per-ml is [price / vol] exactly when both cells parse and the
    volume is non-zero (the division then does not raise); otherwise
    (price absent, volume absent, or volume zero) it is absent. *)
Theorem sunscreen_price_per_ml (df : table) :
  exists recs, build_sunscreen_comparison df = inr recs /\
    forall i rec, nth_error recs i = Some rec ->
      exists r, nth_error (rows df) i = Some r /\
        ppm_ok (cell_float (row_of df r) col_price)
               (cell_float (row_of df r) col_vol) (sun_price_per_ml rec).
Proof.
  unfold build_sunscreen_comparison.
  destruct (df_empty df).
  - exists []; split; [reflexivity|]; intros [|i] rec E; discriminate.
  - destruct (mapM_Forall2 sun_row
      (fun x rec => sun_row x = inr rec /\
         ppm_ok (cell_float x col_price) (cell_float x col_vol)
                (sun_price_per_ml rec))
      (map (row_of df) (rows df))) as [recs [E F]].
    { intros x; destruct (sun_row_ok x) as (rec & H1 & _ & _ & _ & _ & _ & H7).
      eauto. }
    exists recs; split; [exact E|].
    intros i rec Hi.
    destruct (Forall2_nth_r _ _ _ i rec F Hi) as (x & Hx & _ & Hp).
    destruct (nth_error_map_row_inv df i x Hx) as (r & Hr & ->).
    eauto.
Qed.

Definition spf_row : table :=
  mk_table [u "Product Brand"; u "Product Name"; col_price; col_vol] [0]
           [[u "A"; u "X"; u "20"; u "100"]].

Lemma sunscreen_price_per_ml_witness :
  exists rec, build_sunscreen_comparison spf_row = inr [rec] /\
    exists q, py_div (round_binary64 false 20 1) (round_binary64 false 100 1)
              = inr q /\ sun_price_per_ml rec = Some q /\
              q = round_binary64 false 2 10.
Proof.
  destruct (sunscreen_price_per_ml spf_row) as (recs & E & H).
  assert (Hrecs : exists rec, recs = [rec]).
  { vm_compute in E; inversion E; eauto. }
  destruct Hrecs as [rec ->].
  exists rec; split; [exact E|].
  destruct (H 0%nat rec eq_refl) as (r & Hr & Hp).
  vm_compute in Hr; inversion Hr; subst r.
  vm_compute in Hp; destruct Hp as (q & Hq & Hppm).
  exists q; split; [exact Hq|]; split; [exact Hppm|].
  inversion Hq; reflexivity.
Defined.

(** C3 (as stated): one record per input row for every input table. *)
Lemma comparison_rows_without_columns :
  ~ (forall df, exists recs, build_sunscreen_comparison df = inr recs /\
                             List.length recs = List.length (rows df)).
Proof.
  intros H; destruct (H (mk_table [] [0] [[]])) as (recs & E & L).
  vm_compute in E; inversion E; subst; discriminate.
Qed.

(** C3 (amended): for every input table with at least one column (of any
    number of rows), both builders return, without raising, exactly one
    record per row, in order: record [i] carries the label of row [i] and
    the parsed metric cells of row [i], so a row whose cells all fail to
    parse gives a record whose metrics are all absent.  A table with no
    columns is [df.empty] and yields no records, even when it has rows. *)
Theorem comparison_one_record_per_row :
  (forall df, columns df <> [] ->
     (exists recs, build_sunscreen_comparison df = inr recs /\
        List.length recs = List.length (rows df) /\
        forall i r, nth_error (rows df) i = Some r ->
          exists rec, nth_error recs i = Some rec /\
            let x := row_of df r in
            sun_product rec = make_label x (u "sun") /\
            sun_spf_lab rec = cell_float x col_spf_lab /\
            sun_uva_pf_lab rec = cell_float x col_uva_lab /\
            sun_blue_light_lab rec = cell_float x col_bl_lab /\
            sun_visible_lab rec = cell_float x col_vis_lab /\
            (cell_float x col_price = None -> sun_price_per_ml rec = None))
     /\ (exists recs, build_clothing_comparison df = inr recs /\
        List.length recs = List.length (rows df) /\
        forall i r, nth_error (rows df) i = Some r ->
          exists rec, nth_error recs i = Some rec /\
            let x := row_of df r in
            cloth_product rec = make_label x (u "cloth") /\
            cloth_spf_lab rec = cell_float x col_spf_lab /\
            cloth_uva_pf_lab rec = cell_float x col_uva_lab /\
            cloth_blue_light_lab rec = cell_float x col_bl_lab /\
            cloth_visible_lab rec = cell_float x col_vis_lab /\
            cloth_price rec = cell_float x col_price))
  /\ (forall df, columns df = [] ->
        build_sunscreen_comparison df = inr [] /\
        build_clothing_comparison df = inr []).
Proof.
  split.
  - intros df Hc.
    destruct (df_empty df) eqn:Em.
    + assert (Hr : rows df = []).
      { unfold df_empty in Em; apply orb_prop in Em as [Em|Em];
          apply Nat.eqb_eq in Em.
        - destruct (columns df); [contradiction|discriminate].
        - apply length_zero_iff_nil; exact Em. }
      unfold build_sunscreen_comparison, build_clothing_comparison.
      rewrite Em, Hr; split; exists []; (split; [reflexivity|]);
        (split; [reflexivity|]); intros [|i] r E; discriminate.
    + unfold build_sunscreen_comparison, build_clothing_comparison; rewrite Em.
      split.
      * destruct (mapM_Forall2 sun_row
          (fun x rec => sun_row x = inr rec /\
             sun_product rec = make_label x (u "sun") /\
             sun_spf_lab rec = cell_float x col_spf_lab /\
             sun_uva_pf_lab rec = cell_float x col_uva_lab /\
             sun_blue_light_lab rec = cell_float x col_bl_lab /\
             sun_visible_lab rec = cell_float x col_vis_lab /\
             (cell_float x col_price = None -> sun_price_per_ml rec = None))
          (map (row_of df) (rows df))) as [recs [E F]].
        { intros x; destruct (sun_row_ok x) as (rec & H1 & H2 & H3 & H4 & H5 & H6 & H7).
          exists rec; repeat split; auto.
          intros Hp; unfold ppm_ok in H7; rewrite Hp in H7; exact H7. }
        exists recs; split; [exact E|]; split.
        { rewrite <- (Forall2_length F), length_map; reflexivity. }
        intros i r Hr.
        destruct (Forall2_nth_l _ _ _ i _ F (nth_error_map_row df i r Hr))
          as (rec & Hrec & _ & P); eauto.
      * destruct (mapM_Forall2 cloth_row
          (fun x rec => cloth_row x = inr rec /\
             cloth_product rec = make_label x (u "cloth") /\
             cloth_spf_lab rec = cell_float x col_spf_lab /\
             cloth_uva_pf_lab rec = cell_float x col_uva_lab /\
             cloth_blue_light_lab rec = cell_float x col_bl_lab /\
             cloth_visible_lab rec = cell_float x col_vis_lab /\
             cloth_price rec = cell_float x col_price)
          (map (row_of df) (rows df))) as [recs [E F]].
        { intros x; destruct (cloth_row_ok x) as (rec & H); exists rec; split; [apply H|exact H]. }
        exists recs; split; [exact E|]; split.
        { rewrite <- (Forall2_length F), length_map; reflexivity. }
        intros i r Hr.
        destruct (Forall2_nth_l _ _ _ i _ F (nth_error_map_row df i r Hr))
          as (rec & Hrec & _ & P); eauto.
  - intros df Hc; unfold build_sunscreen_comparison, build_clothing_comparison,
      df_empty; rewrite Hc; split; reflexivity.
Qed.

Lemma comparison_one_record_per_row_witness :
  columns spf_row <> [] /\
  exists recs, build_sunscreen_comparison spf_row = inr recs /\
               List.length recs = 1%nat.
Proof.
  split; [discriminate|].
  destruct (proj1 (proj1 comparison_one_record_per_row spf_row ltac:(discriminate)))
    as (recs & E & L & _).
  exists recs; split; [exact E|rewrite L; reflexivity].
Defined.

(** C4: for a table (distinct column names: a row maps names to cells) and
    any ordered list of wanted names, [safe_select_columns] keeps exactly
    the wanted names present in the table, in the wanted order, with the
    same index and each row's cells under those names unchanged; when no
    wanted name is present the result has zero columns and the same index
    and number of rows.  (It is a total function: it never raises.) *)
Theorem safe_select_columns_spec (df : table) (cols : list pystr) :
  NoDup (columns df) ->
  let present := filter (fun c => existsb (streq c) (columns df)) cols in
  let out := safe_select_columns df cols in
  columns out = present /\
  index out = index df /\
  rows out = map (fun r => map (fun c => row_get (row_of df r) c []) present)
                 (rows df) /\
  (present = [] ->
     columns out = [] /\ index out = index df /\
     List.length (rows out) = List.length (rows df)).
Proof.
  intros Hnd present out.
  assert (Hp : forall c, In c present -> In c (columns df)).
  { intros c Hc; unfold present in Hc; apply filter_In in Hc as [_ Hc].
    apply existsb_streq_in; exact Hc. }
  assert (Main : columns out = present /\ index out = index df /\
    rows out = map (fun r => map (fun c => row_get (row_of df r) c []) present)
                   (rows df)).
  { unfold out, safe_select_columns; fold present.
    destruct (is_empty present) eqn:E.
    - destruct present as [|c l]; [|discriminate].
      split; [reflexivity|]; split; [reflexivity|]; reflexivity.
    - simpl; split; [apply select_columns_names; assumption|].
      split; [reflexivity|].
      apply map_ext; intros r; apply select_columns_cells; assumption. }
  destruct Main as (H1 & H2 & H3).
  split; [exact H1|]; split; [exact H2|]; split; [exact H3|].
  intros He; split; [rewrite H1; exact He|]; split; [exact H2|].
  rewrite H3, length_map; reflexivity.
Qed.

Definition abc_table : table :=
  mk_table [u "A"; u "B"; u "C"] [0; 1]
           [[u "a0"; u "b0"; u "c0"]; [u "a1"; u "b1"; u "c1"]].

Lemma safe_select_columns_spec_witness :
  NoDup (columns abc_table) /\
  columns (safe_select_columns abc_table [u "C"; u "A"; u "Z"]) = [u "C"; u "A"] /\
  rows (safe_select_columns abc_table [u "C"; u "A"; u "Z"]) =
    [[u "c0"; u "a0"]; [u "c1"; u "a1"]].
Proof.
  assert (Hnd : NoDup (columns abc_table)).
  { repeat constructor; simpl; intuition discriminate. }
  destruct (safe_select_columns_spec abc_table [u "C"; u "A"; u "Z"] Hnd)
    as (H1 & _ & H3 & _).
  split; [exact Hnd|]; split.
  - rewrite H1; vm_compute; reflexivity.
  - rewrite H3; vm_compute; reflexivity.
Defined.

Lemma drop_while_head (p : Z -> bool) (s : pystr) (c : Z) (rest : pystr) :
  drop_while p s = c :: rest -> p c = false.
Proof.
  induction s as [|x s IH]; simpl; [discriminate|].
  destruct (p x) eqn:E; [exact IH|intros H; inversion H; subst; exact E].
Qed.

Lemma drop_while_suffix (p : Z -> bool) (s : pystr) :
  exists pre, s = pre ++ drop_while p s.
Proof.
  induction s as [|x s IH]; simpl; [exists []; reflexivity|].
  destruct (p x); [destruct IH as [pre E]; exists (x :: pre); simpl; rewrite <- E|
                   exists []]; reflexivity.
Qed.

(** [strip_chars p] leaves no character of [p] at either end. *)
Lemma strip_chars_ends (p : Z -> bool) (s : pystr) :
  (forall c rest, strip_chars p s = c :: rest -> p c = false) /\
  (forall c rest, rev (strip_chars p s) = c :: rest -> p c = false).
Proof.
  unfold strip_chars; split.
  - intros c rest E.
    set (X := drop_while p s) in *.
    set (D := drop_while p (rev X)) in *.
    destruct (drop_while_suffix p (rev X)) as [pre Hpre]; fold D in Hpre.
    apply (f_equal (@rev Z)) in Hpre.
    rewrite rev_involutive, rev_app_distr, E in Hpre.
    simpl in Hpre; unfold X in Hpre.
    exact (drop_while_head p s c _ Hpre).
  - intros c rest E; rewrite rev_involutive in E.
    exact (drop_while_head p _ c rest E).
Qed.

Lemma first_nonempty_split (pre : list pystr) (v : pystr) (post : list pystr) :
  Forall (fun x => strip x = []) pre -> strip v <> [] ->
  first_nonempty (pre ++ v :: post) = v.
Proof.
  induction pre as [|x pre IH]; intros Hpre Hv; simpl.
  - destruct (strip v); [contradiction|reflexivity].
  - inversion Hpre; subst. rewrite H1; simpl; apply IH; assumption.
Qed.

(** C5: when the stripped brand and name are both empty, the label is
    built on the first cell of the row, in column order, whose stripped
    text is non-empty (taken as it is), followed by the kind's suffix, and
    the final label has no space or em-dash at either end. *)
Theorem make_label_fallback (r : row) (kind : pystr)
    (pre : list pystr) (v : pystr) (post : list pystr) :
  strip (row_get r (u "Product Brand") []) = [] ->
  strip (row_get r (u "Product Name") []) = [] ->
  map snd r = pre ++ v :: post ->
  Forall (fun x => strip x = []) pre -> strip v <> [] ->
  make_label r kind = strip_chars is_sep (v ++ label_extra r kind) /\
  (forall c rest, make_label r kind = c :: rest -> c <> 32 /\ c <> 8212) /\
  (forall c rest, rev (make_label r kind) = c :: rest -> c <> 32 /\ c <> 8212).
Proof.
  intros Hb Hn Hv Hpre Hne.
  assert (E : make_label r kind = strip_chars is_sep (v ++ label_extra r kind)).
  { unfold make_label; rewrite Hb, Hn; simpl.
    rewrite Hv, first_nonempty_split by assumption; reflexivity. }
  assert (Sep : forall c, is_sep c = false -> c <> 32 /\ c <> 8212).
  { intros c H; unfold is_sep in H; apply orb_false_iff in H as [H1 H2].
    apply Z.eqb_neq in H1; apply Z.eqb_neq in H2; split; assumption. }
  destruct (strip_chars_ends is_sep (v ++ label_extra r kind)) as [H1 H2].
  split; [exact E|]; rewrite E; split; intros c rest H; apply Sep; eauto.
Qed.

Definition fallback_row : row :=
  [(u "Product Brand", u " "); (u "Product Name", []);
   (u "Material", u "Cotton"); (u "Volume (ml)", u "50")].

Lemma make_label_fallback_witness :
  make_label fallback_row (u "sun") = u "Cotton — 50 ml".
Proof.
  destruct (make_label_fallback fallback_row (u "sun") [u " "; []] (u "Cotton") [u "50"]
              eq_refl eq_refl eq_refl
              ltac:(repeat constructor) ltac:(discriminate)) as [E _].
  rewrite E; vm_compute; reflexivity.
Defined.

Definition acme_row (vol : pystr) : row :=
  [(u "Product Brand", u "Acme"); (u "Product Name", u "Shield");
   (u "Volume (ml)", vol)].

(** C8 (as stated): the volume is appended unless it is the literal "nan";
    the code compares case-insensitively, so "NaN" is not appended. *)
Lemma make_label_nan_any_case :
  make_label (acme_row (u "NaN")) (u "sun") = u "Acme — Shield" /\
  make_label (acme_row (u "NaN")) (u "sun") <> u "Acme — Shield — NaN ml".
Proof. split; vm_compute; [reflexivity|discriminate]. Qed.

(** C8 (amended): when the stripped brand or name is non-empty, the label
    is brand and name joined by " — " (an empty side omitted), followed
    for kind "sun" by " — <volume> ml" when the stripped volume is
    non-empty and not "nan" in any letter case, for kind "cloth" by
    " — <material>" under the same condition, and for other kinds by
    nothing; spaces and em-dashes are then stripped from both ends of the
    whole.  For brand "Acme", name "Shield", volume "50", kind "sun" it
    is "Acme — Shield — 50 ml". *)
Theorem make_label_brand_name (r : row) (kind : pystr) :
  let brand := strip (row_get r (u "Product Brand") []) in
  let name := strip (row_get r (u "Product Name") []) in
  (brand <> [] \/ name <> []) ->
  make_label r kind =
    strip_chars is_sep
      ((if is_empty brand then name
        else if is_empty name then brand
        else brand ++ u " — " ++ name) ++ label_extra r kind) /\
  label_extra r kind =
    (if streq kind (u "sun") then
       let vol := strip (row_get r (u "Volume (ml)") []) in
       if negb (is_empty vol) && negb (streq (lower vol) (u "nan"))
       then u " — " ++ vol ++ u " ml" else []
     else if streq kind (u "cloth") then
       let mat := strip (row_get r (u "Material") []) in
       if negb (is_empty mat) && negb (streq (lower mat) (u "nan"))
       then u " — " ++ mat else []
     else []) /\
  make_label (acme_row (u "50")) (u "sun") = u "Acme — Shield — 50 ml".
Proof.
  intros brand name H; split.
  2: split; [unfold label_extra; reflexivity|vm_compute; reflexivity].
  unfold make_label; fold brand name.
  generalize (label_extra r kind); intros extra.
  destruct brand as [|b bs], name as [|n ns];
    [destruct H; contradiction| | |]; cbn [join filter is_empty negb app];
    reflexivity.
Qed.

Lemma make_label_brand_name_witness :
  strip (row_get (acme_row (u "NaN")) (u "Product Brand") []) <> [] /\
  make_label (acme_row (u "NaN")) (u "sun") = strip_chars is_sep (u "Acme — Shield").
Proof.
  assert (Hb : strip (row_get (acme_row (u "NaN")) (u "Product Brand") []) <> [])
    by (vm_compute; discriminate).
  split; [exact Hb|].
  pose proof (make_label_brand_name (acme_row (u "NaN")) (u "sun")) as H.
  cbv zeta in H; destruct (H (or_introl Hb)) as [E _].
  rewrite E; vm_compute; reflexivity.
Defined.

(** C9: with the show-all toggle off, the view of a loaded (non-empty)
    table holds exactly the rows whose label is among the chosen labels,
    in table order, with all the table's columns; every row whose label is
    chosen is in it, so two rows sharing a chosen label are both kept. *)
Theorem selection_view_by_label (kind info : pystr) (t : table)
    (chosen : list pystr) :
  df_empty t = false ->
  exists v, tab_view kind info t chosen false = TabView v /\
    columns v = columns t /\
    rows v = filter (fun r => existsb (streq (make_label (row_of t r) kind)) chosen)
                    (rows t) /\
    (forall r, In r (rows v) <->
               In r (rows t) /\ In (make_label (row_of t r) kind) chosen).
Proof.
  intros He; unfold tab_view; rewrite He.
  eexists; split; [reflexivity|]; simpl.
  assert (Hr : mask_filter (isin (labels_of t kind) chosen) (rows t) =
               filter (fun r => existsb (streq (make_label (row_of t r) kind)) chosen)
                      (rows t)).
  { unfold isin, labels_of; rewrite map_map; apply mask_filter_map. }
  split; [reflexivity|]; split; [exact Hr|].
  intros r; rewrite Hr, filter_In.
  rewrite existsb_exists; split.
  - intros [Hin (x & Hx & E)]; apply streq_true in E; subst; auto.
  - intros [Hin Hc]; split; [exact Hin|]; exists (make_label (row_of t r) kind).
    split; [exact Hc|apply streq_refl].
Qed.

Definition twin_table : table :=
  mk_table [u "Product Brand"; u "Product Name"; u "Volume (ml)"] [0; 1; 2]
           [[u "A"; u "X"; u "50"]; [u "B"; u "Y"; u "30"]; [u "A"; u "X"; u "50"]].

Lemma selection_view_by_label_witness :
  df_empty twin_table = false /\
  exists v, tab_view (u "sun") sun_info twin_table [u "A — X — 50 ml"] false = TabView v /\
    rows v = [[u "A"; u "X"; u "50"]; [u "A"; u "X"; u "50"]].
Proof.
  split; [reflexivity|].
  destruct (selection_view_by_label (u "sun") sun_info twin_table
              [u "A — X — 50 ml"] eq_refl) as (v & E & _ & Hr & _).
  exists v; split; [exact E|]; rewrite Hr; vm_compute; reflexivity.
Defined.

(** C7: the script survives a sheet that cannot be read.  Each category's
    table, tab and error lines are those of its own read alone (so a
    failure of one leaves the other category untouched); a failed read
    (missing file, missing sheet or a file that is not a workbook, each of
    which raises) gives the empty [pd.DataFrame()], the tab's "no data"
    notice, and an error line naming the sheet and the exception. *)
Theorem load_failure_non_fatal (app_dir : pystr) (w : world) (ui : ui_input) :
  let path := DATA_XLSX app_dir in
  let r_sun := snd (cached_load_sheet w path SHEET_SUN) in
  let r_clo := snd (cached_load_sheet w path SHEET_CLO) in
  let out := snd (run_app app_dir w ui) in
  out = mk_app_out (fst (report SHEET_SUN r_sun)) (fst (report SHEET_CLO r_clo))
          (snd (report SHEET_SUN r_sun) ++ snd (report SHEET_CLO r_clo))
          (tab_view (u "sun") sun_info (fst (report SHEET_SUN r_sun))
                    (sun_chosen ui) (sun_show_all ui))
          (tab_view (u "cloth") cloth_info (fst (report SHEET_CLO r_clo))
                    (cloth_chosen ui) (cloth_show_all ui)) /\
  (forall e, r_sun = inl e ->
     suns out = empty_dataframe /\ tab1 out = TabInfo sun_info /\
     In (load_error_message SHEET_SUN e) (errors out)) /\
  (forall e, r_clo = inl e ->
     cloth out = empty_dataframe /\ tab2 out = TabInfo cloth_info /\
     In (load_error_message SHEET_CLO e) (errors out)) /\
  (forall sheet, assoc streq path (fs w) = None ->
     load_sheet (fs w) path sheet = inl (FileNotFoundError path)) /\
  (forall sheet, assoc streq path (fs w) = Some Corrupt ->
     load_sheet (fs w) path sheet = inl BadZipFile) /\
  (forall sheet sheets, assoc streq path (fs w) = Some (Workbook sheets) ->
     assoc streq sheet sheets = None ->
     exists msg, load_sheet (fs w) path sheet = inl (ValueError msg)).
Proof.
  intros path r_sun r_clo out.
  assert (Main : out =
    mk_app_out (fst (report SHEET_SUN r_sun)) (fst (report SHEET_CLO r_clo))
      (snd (report SHEET_SUN r_sun) ++ snd (report SHEET_CLO r_clo))
      (tab_view (u "sun") sun_info (fst (report SHEET_SUN r_sun))
                (sun_chosen ui) (sun_show_all ui))
      (tab_view (u "cloth") cloth_info (fst (report SHEET_CLO r_clo))
                (cloth_chosen ui) (cloth_show_all ui))).
  { pose proof (cached_load_other_sheet w path SHEET_SUN SHEET_CLO eq_refl) as Ho.
    unfold out, r_sun, r_clo, run_app, load_or_report; fold path.
    destruct (cached_load_sheet w path SHEET_SUN) as [w1 r1] eqn:E1.
    simpl in Ho |- *.
    destruct (cached_load_sheet w1 path SHEET_CLO) as [w2 r2] eqn:E2.
    simpl in Ho |- *; rewrite <- Ho.
    destruct (report SHEET_SUN r1), (report SHEET_CLO r2); reflexivity. }
  split; [exact Main|].
  split; [|split; [|split; [|split]]].
  - intros e He; rewrite Main; simpl; rewrite He; simpl.
    split; [reflexivity|]; split; [reflexivity|left; reflexivity].
  - intros e He; rewrite Main; simpl; rewrite He; simpl.
    split; [reflexivity|]; split; [reflexivity|].
    apply in_or_app; right; left; reflexivity.
  - intros sheet H; unfold load_sheet, read_excel; rewrite H; reflexivity.
  - intros sheet H; unfold load_sheet, read_excel; rewrite H; reflexivity.
  - intros sheet sheets H Hs; unfold load_sheet, read_excel; rewrite H, Hs.
    eexists; reflexivity.
Qed.

Definition no_file_world : world := mk_world [] [] 0.

Lemma load_failure_non_fatal_witness :
  snd (cached_load_sheet no_file_world (DATA_XLSX []) SHEET_SUN) =
    inl (FileNotFoundError (DATA_XLSX [])) /\
  tab1 (snd (run_app [] no_file_world (mk_ui_input [] false [] false)))
    = TabInfo sun_info.
Proof.
  assert (He : snd (cached_load_sheet no_file_world (DATA_XLSX []) SHEET_SUN) =
               inl (FileNotFoundError (DATA_XLSX []))) by reflexivity.
  split; [exact He|].
  destruct (load_failure_non_fatal [] no_file_world (mk_ui_input [] false [] false))
    as (_ & Hs & _).
  exact (proj1 (proj2 (Hs _ He))).
Defined.

(** C10: once [load_sheet(path, sheet)] has returned a table, every later
    call with the same arguments, after any other loads and any change of
    the files on disk, returns the same table and leaves the process state
    (in particular the number of source reads) unchanged. *)
Theorem load_sheet_cached (w w1 w2 : world) (path sheet : pystr) (t : table) :
  cached_load_sheet w path sheet = (w1, inr t) ->
  reachable w1 w2 ->
  cached_load_sheet w2 path sheet = (w2, inr t).
Proof.
  intros H1 R.
  assert (Hc : assoc key_eqb (path, sheet) (cache w1) = Some t).
  { unfold cached_load_sheet in H1.
    destruct (assoc key_eqb (path, sheet) (cache w)) eqn:E.
    - inversion H1; subst; exact E.
    - destruct (load_sheet (fs w) path sheet); inversion H1; subst; simpl.
      unfold key_eqb; simpl; rewrite !streq_refl; reflexivity. }
  pose proof (cache_entry_kept w1 w2 _ t R Hc) as Hc2.
  unfold cached_load_sheet; rewrite Hc2; reflexivity.
Qed.

Definition catalogue_world : world :=
  mk_world [(DATA_XLSX [], Workbook [(SHEET_SUN, mk_raw_sheet
              [u "Product Brand"; u "Product Name"] [0]
              [[Some (u "A"); None]])])] [] 0.

Lemma load_sheet_cached_witness :
  exists t, cached_load_sheet catalogue_world (DATA_XLSX []) SHEET_SUN =
              (fst (cached_load_sheet catalogue_world (DATA_XLSX []) SHEET_SUN), inr t) /\
    let w1 := fst (cached_load_sheet catalogue_world (DATA_XLSX []) SHEET_SUN) in
    reads w1 = 1%nat /\
    cached_load_sheet w1 (DATA_XLSX []) SHEET_SUN = (w1, inr t).
Proof.
  exists (mk_table [u "Product Brand"; u "Product Name"] [0] [[u "A"; []]]).
  assert (E : cached_load_sheet catalogue_world (DATA_XLSX []) SHEET_SUN =
    (fst (cached_load_sheet catalogue_world (DATA_XLSX []) SHEET_SUN),
     inr (mk_table [u "Product Brand"; u "Product Name"] [0] [[u "A"; []]])))
    by (vm_compute; reflexivity).
  split; [exact E|]; split; [vm_compute; reflexivity|].
  exact (load_sheet_cached catalogue_world _ _ (DATA_XLSX []) SHEET_SUN _ E
           (reach_refl _)).
Defined.

(** * Rendering layer *)

Lemma ui_bind_out {A B} (m : ui A) (k : A -> ui B) (out o : list element) (a : A) :
  m out = (o, inr a) -> ui_bind m k out = k a o.
Proof. intros H; unfold ui_bind; rewrite H; reflexivity. Qed.

Lemma ui_emit_out (e : element) (out : list element) :
  ui_emit e out = (out ++ [e], inr tt).
Proof. reflexivity. Qed.

Lemma st_columns_ones (n : nat) (out : list element) :
  (0 < n)%nat -> st_columns (repeat 1 n) out = (out ++ [Columns (repeat 1 n)], inr tt).
Proof.
  intros Hn; unfold st_columns.
  replace (is_empty (repeat 1 n)) with false by (destruct n; [lia|reflexivity]).
  replace (existsb (fun w => w <=? 0) (repeat 1 n)) with false; [reflexivity|].
  induction n as [|n IH]; [reflexivity|]; simpl.
  destruct n; [reflexivity|apply IH; lia].
Qed.

Lemma st_columns_11 (out : list element) :
  st_columns [1; 1] out = (out ++ [Columns [1; 1]], inr tt).
Proof. reflexivity. Qed.

Lemma st_columns_21 (out : list element) :
  st_columns [2; 1] out = (out ++ [Columns [2; 1]], inr tt).
Proof. reflexivity. Qed.

Lemma filter_points {R} (f : R -> list cell) (prod : R -> pystr)
    (get : R -> option f64) (ip ic : nat) (recs : list R) :
  (forall r, nth ip (f r) (CNum None) = CText (prod r)) ->
  (forall r, nth ic (f r) (CNum None) = CNum (get r)) ->
  filter (fun pc => negb (is_na (snd pc)))
    (map (fun r => (nth ip r (CNum None), nth ic r (CNum None))) (map f recs)) =
  map (fun pv => (CText (fst pv), CNum (snd pv)))
    (filter (fun pv => negb (is_na (CNum (snd pv))))
            (map (fun r => (prod r, get r)) recs)).
Proof.
  intros Hp Hg; induction recs as [|r recs IH]; [reflexivity|].
  cbn [map filter]; rewrite Hp, Hg; cbn [snd fst].
  destruct (negb (is_na (CNum (get r)))); rewrite IH; reflexivity.
Qed.

(** [plot_metric_bars] on a frame whose rows carry a label and a value. *)
Lemma plot_metric_bars_frame {R} (cols : list pystr) (f : R -> list cell)
    (recs : list R) (prod : R -> pystr) (get : R -> option f64)
    (col title y_label : pystr) (decimals : Z) (target : nat) (ip ic : nat)
    (out : list element) :
  existsb (streq col) cols = true ->
  index_of (u "Product") cols = Some ip -> index_of col cols = Some ic ->
  (forall r, nth ip (f r) (CNum None) = CText (prod r)) ->
  (forall r, nth ic (f r) (CNum None) = CNum (get r)) ->
  plot_metric_bars (mk_frame cols (map f recs)) col title y_label decimals target out =
  (out ++ metric_chart target col title y_label decimals
                       (map (fun r => (prod r, get r)) recs), inr tt).
Proof.
  intros He Hip Hic Hp Hg; unfold plot_metric_bars, metric_chart.
  cbn [fcolumns frows]; rewrite He, Hip, Hic; cbn [negb].
  rewrite (filter_points f prod get ip ic recs Hp Hg).
  destruct (filter _ (map (fun r => (prod r, get r)) recs));
    cbn [is_empty map ui_ret ui_emit]; [rewrite app_nil_r|]; reflexivity.
Qed.

Lemma sun_frame_nonempty (recs : list sun_record) :
  recs <> [] -> sun_frame recs = mk_frame SUN_COMP_COLS (map sun_cells recs).
Proof. destruct recs; [contradiction|reflexivity]. Qed.

Lemma cloth_frame_nonempty (recs : list cloth_record) :
  recs <> [] -> cloth_frame recs = mk_frame CLO_COMP_COLS (map cloth_cells recs).
Proof. destruct recs; [contradiction|reflexivity]. Qed.

Ltac plot_step :=
  erewrite plot_metric_bars_frame;
  [| vm_compute; reflexivity | vm_compute; reflexivity | vm_compute; reflexivity
   | intros; reflexivity | intros; reflexivity].

Lemma show_sun_panel (recs : list sun_record) (out : list element) :
  (2 <= List.length recs)%nat ->
  show_sunscreen_comparison (sun_frame recs) out =
  (out ++ sun_panel_elements recs, inr tt).
Proof.
  intros Hl.
  assert (Hne : recs <> []) by (destruct recs; simpl in Hl; [lia|discriminate]).
  unfold show_sunscreen_comparison.
  replace (frame_empty (sun_frame recs) || (List.length (frows (sun_frame recs)) <? 2)%nat)
    with false.
  2:{ unfold frame_empty; rewrite sun_frame_nonempty by exact Hne; cbn [fcolumns frows].
      rewrite length_map; destruct recs as [|? [|? ?]]; simpl in Hl;
        [lia|lia|reflexivity]. }
  rewrite sun_frame_nonempty by exact Hne.
  unfold ui_bind at 1; rewrite ui_emit_out; cbv beta iota.
  unfold ui_bind at 1; rewrite ui_emit_out; cbv beta iota.
  unfold ui_bind at 1; rewrite st_columns_11; cbv beta iota.
  unfold ui_bind at 1; plot_step; cbv beta iota.
  unfold ui_bind at 1; plot_step; cbv beta iota.
  unfold ui_bind at 1; rewrite st_columns_11; cbv beta iota.
  unfold ui_bind at 1; plot_step; cbv beta iota.
  unfold ui_bind at 1; plot_step; cbv beta iota.
  unfold ui_bind at 1; rewrite st_columns_11; cbv beta iota.
  plot_step.
  unfold sun_panel_elements, sun_points; rewrite <- !app_assoc; reflexivity.
Qed.

Lemma show_cloth_panel (recs : list cloth_record) (out : list element) :
  (2 <= List.length recs)%nat ->
  show_clothing_comparison (cloth_frame recs) out =
  (out ++ cloth_panel_elements recs, inr tt).
Proof.
  intros Hl.
  assert (Hne : recs <> []) by (destruct recs; simpl in Hl; [lia|discriminate]).
  unfold show_clothing_comparison.
  replace (frame_empty (cloth_frame recs) || (List.length (frows (cloth_frame recs)) <? 2)%nat)
    with false.
  2:{ unfold frame_empty; rewrite cloth_frame_nonempty by exact Hne; cbn [fcolumns frows].
      rewrite length_map; destruct recs as [|? [|? ?]]; simpl in Hl;
        [lia|lia|reflexivity]. }
  rewrite cloth_frame_nonempty by exact Hne.
  unfold ui_bind at 1; rewrite ui_emit_out; cbv beta iota.
  unfold ui_bind at 1; rewrite ui_emit_out; cbv beta iota.
  unfold ui_bind at 1; rewrite st_columns_11; cbv beta iota.
  unfold ui_bind at 1; plot_step; cbv beta iota.
  unfold ui_bind at 1; plot_step; cbv beta iota.
  unfold ui_bind at 1; rewrite st_columns_11; cbv beta iota.
  unfold ui_bind at 1; plot_step; cbv beta iota.
  unfold ui_bind at 1; plot_step; cbv beta iota.
  unfold ui_bind at 1; rewrite st_columns_11; cbv beta iota.
  plot_step.
  unfold cloth_panel_elements, cloth_points; rewrite <- !app_assoc; reflexivity.
Qed.

Lemma show_sun_small (recs : list sun_record) (out : list element) :
  (List.length recs < 2)%nat ->
  show_sunscreen_comparison (sun_frame recs) out = (out, inr tt).
Proof.
  intros Hl; unfold show_sunscreen_comparison.
  replace (List.length (frows (sun_frame recs)) <? 2)%nat with true;
    [rewrite orb_true_r; reflexivity|].
  symmetry; apply Nat.ltb_lt; simpl; rewrite length_map; exact Hl.
Qed.

Lemma show_cloth_small (recs : list cloth_record) (out : list element) :
  (List.length recs < 2)%nat ->
  show_clothing_comparison (cloth_frame recs) out = (out, inr tt).
Proof.
  intros Hl; unfold show_clothing_comparison.
  replace (List.length (frows (cloth_frame recs)) <? 2)%nat with true;
    [rewrite orb_true_r; reflexivity|].
  symmetry; apply Nat.ltb_lt; simpl; rewrite length_map; exact Hl.
Qed.





(** * Further properties *)

(** X1: the sunscreen comparison panel shows nothing for fewer than two
    records; for two or more it writes the heading, the caption and three
    rows of columns holding the SPF and UVA charts, the blue-light and
    visible-light charts, and the price-per-ml chart; each chart has one
    bar per record whose value is neither absent nor NaN, in record order,
    and a metric without such a value gets no chart.  It never raises. *)
Theorem sun_comparison_panel_content (recs : list sun_record) (out : list element) :
  ((List.length recs < 2)%nat ->
     show_sunscreen_comparison (sun_frame recs) out = (out, inr tt)) /\
  ((2 <= List.length recs)%nat ->
     show_sunscreen_comparison (sun_frame recs) out =
     (out ++ sun_panel_elements recs, inr tt)).
Proof. split; [apply show_sun_small|apply show_sun_panel]. Qed.

Definition two_suns : list sun_record :=
  [mk_sun_record (u "A") (Some (round_binary64 false 30 1)) None None None None;
   mk_sun_record (u "B") (Some F64NaN) None None None None].

Lemma sun_comparison_panel_content_witness :
  (2 <= List.length two_suns)%nat /\
  show_sunscreen_comparison (sun_frame two_suns) [] =
  ([Markdown (u "### Comparison panel");
    Caption (u "Comparing SPF (lab, UVB), UVA PF (lab), blue & visible lab measures, and cost per ml for selected sunscreens.");
    Columns [1; 1];
    Chart 0 (plotly_bar [(CText (u "A"), CNum (Some (round_binary64 false 30 1)))]
               (u "SPF_lab (UVB)") (u "SPF (lab) – UVB protection") (u "SPF (lab)") 1) true;
    Columns [1; 1]; Columns [1; 1]], inr tt).
Proof.
  assert (H : (2 <= List.length two_suns)%nat) by (simpl; lia).
  split; [exact H|].
  rewrite (proj2 (sun_comparison_panel_content two_suns []) H).
  vm_compute; reflexivity.
Defined.

(** X2: the clothing comparison panel: nothing for fewer than two
    records; otherwise the heading, the caption and the SPF, UVA,
    blue-light, visible-light and total-price charts in three rows of
    columns, each with the bars of the records whose value is neither
    absent nor NaN, in order (no chart when there is none).  It never
    raises. *)
Theorem cloth_comparison_panel_content (recs : list cloth_record) (out : list element) :
  ((List.length recs < 2)%nat ->
     show_clothing_comparison (cloth_frame recs) out = (out, inr tt)) /\
  ((2 <= List.length recs)%nat ->
     show_clothing_comparison (cloth_frame recs) out =
     (out ++ cloth_panel_elements recs, inr tt)).
Proof. split; [apply show_cloth_small|apply show_cloth_panel]. Qed.

Definition two_cloths : list cloth_record :=
  [mk_cloth_record (u "A") None None None None (Some (round_binary64 false 20 1));
   mk_cloth_record (u "B") None None None None None].

Lemma cloth_comparison_panel_content_witness :
  (2 <= List.length two_cloths)%nat /\
  show_clothing_comparison (cloth_frame two_cloths) [] =
  ([Markdown (u "### Comparison panel");
    Caption (u "Comparing SPF (lab, UVB), UVA PF (lab), blue & visible lab measures, and total price (£) for selected garments.");
    Columns [1; 1]; Columns [1; 1]; Columns [1; 1];
    Chart 0 (plotly_bar [(CText (u "A"), CNum (Some (round_binary64 false 20 1)))]
               (u "Price_£") (u "Price (£)") (u "£") 2) true], inr tt).
Proof.
  assert (H : (2 <= List.length two_cloths)%nat) by (simpl; lia).
  split; [exact H|].
  rewrite (proj2 (cloth_comparison_panel_content two_cloths []) H).
  vm_compute; reflexivity.
Defined.



Lemma ui_iter_each {A} (f : A -> ui unit) (g : A -> element) (l : list A)
    (out : list element) :
  (forall a o, In a l -> f a o = (o ++ [g a], inr tt)) ->
  ui_iter f l out = (out ++ map g l, inr tt).
Proof.
  revert out; induction l as [|a l IH]; intros out H; simpl.
  - rewrite app_nil_r; reflexivity.
  - unfold ui_bind; rewrite (H a out (or_introl eq_refl)).
    rewrite IH by (intros; apply H; right; assumption).
    rewrite <- app_assoc; reflexivity.
Qed.

(** The element the loop writes for one row of the strip. *)
Definition image_element (app_dir : path) (image_ok : pystr -> bool)
    (kind : pystr) (df : table) (ir : nat * list pystr) : element :=
  let r := row_of df (snd ir) in
  let p := resolve_image app_dir (strip (row_get r (u "Image") [])) in
  if image_ok p then Image (fst ir) p 120 (make_label r kind)
  else Write (fst ir) (make_label r kind).

Lemma show_image_row (app_dir : path) (image_ok : pystr -> bool) (kind : pystr)
    (df : table) (ir : nat * list pystr) (o : list element) :
  is_empty (strip (row_get (row_of df (snd ir)) (u "Image") [])) = false ->
  show_image app_dir image_ok kind df ir o =
  (o ++ [image_element app_dir image_ok kind df ir], inr tt).
Proof.
  destruct ir as [i r]; cbn [snd]; intros H; unfold show_image, image_element.
  cbn [fst snd]; rewrite H.
  destruct (image_ok _); reflexivity.
Qed.

Lemma show_product_images_out (app_dir : path) (image_ok : pystr -> bool)
    (df : table) (kind : pystr) (out : list element) :
  let img_rows := filter (fun r => negb (is_empty (strip (row_get (row_of df r)
                                                          (u "Image") []))))
                         (rows df) in
  show_product_images app_dir image_ok df kind out =
  (out ++ (if df_empty df || negb (existsb (streq (u "Image")) (columns df))
              || is_empty img_rows then []
           else Markdown (u "#### Product images")
                :: Columns (repeat 1 (List.length img_rows))
                :: map (image_element app_dir image_ok kind df)
                       (combine (seq 0 (List.length img_rows)) img_rows)),
   inr tt).
Proof.
  intros img_rows; unfold show_product_images; fold img_rows.
  destruct (df_empty df || negb (existsb (streq (u "Image")) (columns df))) eqn:E1;
    cbn [orb]; [rewrite app_nil_r; reflexivity|].
  destruct (is_empty img_rows) eqn:E2; [rewrite app_nil_r; reflexivity|].
  unfold ui_bind at 1; rewrite ui_emit_out; cbv beta iota.
  unfold ui_bind at 1; rewrite st_columns_ones
    by (destruct img_rows; [discriminate|simpl; lia]); cbv beta iota.
  rewrite ui_iter_each with (g := image_element app_dir image_ok kind df).
  - rewrite <- !app_assoc; reflexivity.
  - intros [i r] o Hin; apply show_image_row; cbn [snd].
    apply in_combine_r in Hin; unfold img_rows in Hin.
    apply filter_In in Hin as [_ Hr]; apply negb_true_iff in Hr; exact Hr.
Qed.

(** X4: the image strip writes nothing for an empty table, a table
    without an "Image" column, or one whose "Image" cells are all blank;
    otherwise it writes the "Product images" heading, one row of as many
    equal columns as there are rows with a non-blank "Image" cell (so
    never zero columns), and for each such row, in table order, one
    element in its own column: the picture at the resolved path, 120
    pixels wide and captioned with the row's label, or the label as text
    when Streamlit cannot show the picture.  It never raises. *)
Theorem product_images_strip (app_dir : path) (image_ok : pystr -> bool)
    (df : table) (kind : pystr) (out : list element) :
  let img_rows := filter (fun r => negb (is_empty (strip (row_get (row_of df r)
                                                          (u "Image") []))))
                         (rows df) in
  show_product_images app_dir image_ok df kind out =
  (out ++ (if df_empty df || negb (existsb (streq (u "Image")) (columns df))
              || is_empty img_rows then []
           else Markdown (u "#### Product images")
                :: Columns (repeat 1 (List.length img_rows))
                :: map (image_element app_dir image_ok kind df)
                       (combine (seq 0 (List.length img_rows)) img_rows)),
   inr tt).
Proof. exact (show_product_images_out app_dir image_ok df kind out). Qed.

Lemma split_on_nil (sep : Z) (s : pystr) : split_on sep s <> [].
Proof.
  destruct s as [|c r]; simpl; [discriminate|].
  destruct (c =? sep); [discriminate|]; destruct (split_on sep r); discriminate.
Qed.

Lemma join_cons_head (sep : pystr) (c : Z) (w : pystr) (ws : list pystr) :
  join sep ((c :: w) :: ws) = c :: join sep (w :: ws).
Proof. destruct ws; reflexivity. Qed.

(** Splitting on a separator and joining back gives the text back. *)
Lemma join_split (sep : Z) (s : pystr) : join [sep] (split_on sep s) = s.
Proof.
  induction s as [|c r IH]; [reflexivity|]; simpl.
  destruct (c =? sep) eqn:E.
  - apply Z.eqb_eq in E; subst.
    pose proof (split_on_nil sep r) as Hn.
    destruct (split_on sep r) as [|w ws]; [contradiction|].
    change (join [sep] ([] :: w :: ws)) with ([] ++ [sep] ++ join [sep] (w :: ws)).
    rewrite IH; reflexivity.
  - pose proof (split_on_nil sep r) as Hn.
    destruct (split_on sep r) as [|w ws]; [contradiction|].
    rewrite join_cons_head, IH; reflexivity.
Qed.

Lemma join_app (sep : pystr) (a b : list pystr) :
  a <> [] -> b <> [] -> join sep (a ++ b) = join sep a ++ sep ++ join sep b.
Proof.
  intros Ha Hb; induction a as [|x a IH]; [contradiction|].
  destruct a as [|y a].
  - simpl; destruct b; [contradiction|reflexivity].
  - change ((x :: y :: a) ++ b) with (x :: ((y :: a) ++ b)).
    change (join sep (x :: (y :: a) ++ b)) with (x ++ sep ++ join sep ((y :: a) ++ b)).
    change (join sep (x :: y :: a)) with (x ++ sep ++ join sep (y :: a)).
    rewrite IH by discriminate; rewrite <- !app_assoc; reflexivity.
Qed.

(** A text whose '/'-separated segments are all non-empty starts with a
    character other than '/'. *)
Lemma split_clean_head (s : pystr) :
  Forall (fun seg => seg <> []) (split_on 47 s) ->
  exists c r, s = c :: r /\ (c =? 47) = false.
Proof.
  destruct s as [|c r]; simpl; intros H.
  - inversion H; contradiction.
  - destruct (c =? 47) eqn:E.
    + inversion H; contradiction.
    + exists c, r; split; reflexivity || exact E.
Qed.

Lemma filter_clean_segments (l : list pystr) :
  Forall (fun seg => seg <> [] /\ seg <> u ".") l ->
  filter (fun x => negb (is_empty x) && negb (streq x (u "."))) l = l.
Proof.
  intros H; apply filter_all, forallb_forall; intros x Hx.
  rewrite Forall_forall in H; destruct (H x Hx) as [H1 H2].
  destruct x as [|c x]; [contradiction|]; cbn [is_empty negb andb].
  destruct (streq (c :: x) (u ".")) eqn:E; [apply streq_true in E; contradiction|].
  reflexivity.
Qed.

Lemma u_slash : u "/" = [47]. Proof. reflexivity. Qed.

Lemma url_test_slash (rest : pystr) :
  startswith (lower (47 :: rest)) (u "http://")
  || startswith (lower (47 :: rest)) (u "https://") = false.
Proof.
  unfold startswith; cbn [lower map].
  replace (if (65 <=? 47) && (47 <=? 90) then 47 + 32 else 47) with 47 by reflexivity.
  change (u "http://") with (104 :: tl (u "http://")).
  change (u "https://") with (104 :: tl (u "https://")).
  cbn [List.length firstn]; rewrite !streq_head by lia; reflexivity.
Qed.

(** X5: an image reference that starts with "http://" or "https://" in
    any letter case is used as it is; a relative reference made of
    non-empty segments other than "." is the app folder (with at least one
    component), a slash, and the reference; an absolute such reference is
    used as it is, whatever the app folder. *)
Theorem image_path_resolution (app_dir : path) (ref rest : pystr) :
  (startswith (lower ref) (u "http://") || startswith (lower ref) (u "https://") = true ->
     resolve_image app_dir ref = ref) /\
  (startswith (lower ref) (u "http://") || startswith (lower ref) (u "https://") = false ->
     path_parts app_dir <> [] ->
     Forall (fun seg => seg <> [] /\ seg <> u ".") (split_on 47 ref) ->
     resolve_image app_dir ref = path_str app_dir ++ u "/" ++ ref) /\
  (Forall (fun seg => seg <> [] /\ seg <> u ".") (split_on 47 rest) ->
     resolve_image app_dir (47 :: rest) = 47 :: rest).
Proof.
  split; [|split].
  - intros H; unfold resolve_image; rewrite H; reflexivity.
  - intros Hurl Hp Hs; unfold resolve_image; rewrite Hurl.
    assert (Hne : Forall (fun seg => seg <> []) (split_on 47 ref))
      by (eapply Forall_impl; [|exact Hs]; intros x [Hx _]; exact Hx).
    destruct (split_clean_head ref Hne) as (c & r & Er & Hc).
    unfold path_join, parse_path, splitroot.
    rewrite Er in *; rewrite Hc; cbn [negb]; cbv beta iota.
    rewrite filter_clean_segments by exact Hs; cbn [path_root path_parts is_empty].
    unfold path_str; cbn [path_root path_parts].
    destruct (path_parts app_dir) as [|q qs] eqn:Eq; [contradiction|].
    rewrite !andb_false_r; cbn [app is_empty].
    change (q :: qs ++ split_on 47 (c :: r)) with ((q :: qs) ++ split_on 47 (c :: r)).
    rewrite join_app by (discriminate || apply split_on_nil).
    rewrite u_slash, join_split, <- !app_assoc; reflexivity.
  - intros Hs; unfold resolve_image; rewrite url_test_slash.
    assert (Hne : Forall (fun seg => seg <> []) (split_on 47 rest))
      by (eapply Forall_impl; [|exact Hs]; intros x [Hx _]; exact Hx).
    destruct (split_clean_head rest Hne) as (c & r & Er & Hc).
    unfold path_join, parse_path, splitroot; rewrite Er in *.
    rewrite Z.eqb_refl, Hc; cbn [negb]; cbv beta iota.
    rewrite filter_clean_segments by exact Hs; cbn [path_root path_parts is_empty].
    unfold path_str; cbn [path_root path_parts is_empty andb app].
    rewrite u_slash, join_split; reflexivity.
Qed.

Definition app_folder : path := mk_path (u "/") [u "srv"; u "catalogue"].

Lemma image_path_resolution_witness :
  resolve_image app_folder (u "HTTPS://cdn.example/a.png") = u "HTTPS://cdn.example/a.png" /\
  resolve_image app_folder (u "images/a.png") = u "/srv/catalogue/images/a.png" /\
  resolve_image app_folder (u "/data/b.png") = u "/data/b.png".
Proof.
  destruct (image_path_resolution app_folder (u "HTTPS://cdn.example/a.png") [])
    as [H1 _].
  destruct (image_path_resolution app_folder (u "images/a.png") (u "data/b.png"))
    as (_ & H2 & H3).
  split; [apply H1; vm_compute; reflexivity|].
  split.
  - rewrite H2; [vm_compute; reflexivity|vm_compute; reflexivity|discriminate|].
    vm_compute; repeat constructor; discriminate.
  - apply H3; vm_compute; repeat constructor; discriminate.
Defined.

(** The image strip's elements, as [show_product_images_out] gives them. *)
Definition image_strip_elements (app_dir : path) (image_ok : pystr -> bool)
    (df : table) (kind : pystr) : list element :=
  let img_rows := filter (fun r => negb (is_empty (strip (row_get (row_of df r)
                                                          (u "Image") []))))
                         (rows df) in
  if df_empty df || negb (existsb (streq (u "Image")) (columns df))
     || is_empty img_rows then []
  else Markdown (u "#### Product images")
       :: Columns (repeat 1 (List.length img_rows))
       :: map (image_element app_dir image_ok kind df)
              (combine (seq 0 (List.length img_rows)) img_rows).

Lemma show_product_images_elements (app_dir : path) (image_ok : pystr -> bool)
    (df : table) (kind : pystr) (out : list element) :
  show_product_images app_dir image_ok df kind out =
  (out ++ image_strip_elements app_dir image_ok df kind, inr tt).
Proof. exact (show_product_images_out app_dir image_ok df kind out). Qed.

Lemma render_tab_out (ts : tab_spec) (app_dir : path) (image_ok : pystr -> bool)
    (t : table) (chosen : list pystr) (show_all : bool) (out pe : list element) :
  df_empty t = false ->
  let labels := labels_of t (ts_kind ts) in
  let view := if show_all then t else loc_mask t (isin labels chosen) in
  (forall o, (if negb show_all && (1 <? List.length (rows view))%nat
                 && (List.length (rows view) <=? 3)%nat
              then ts_panel ts view else ui_ret tt) o = (o ++ pe, inr tt)) ->
  render_tab ts app_dir image_ok t chosen show_all out =
  (out ++ [Columns [2; 1];
           Multiselect 0 (ts_select_label ts) labels 3 (ts_select_key ts);
           Toggle 1 (ts_toggle_label ts) false (ts_toggle_key ts)]
       ++ pe ++ image_strip_elements app_dir image_ok view (ts_kind ts)
       ++ [DataFrameEl (safe_select_columns view (ts_display_cols ts)) true true],
   inr tt).
Proof.
  intros Ht labels view Hp; subst labels view.
  unfold render_tab; rewrite Ht; cbv zeta.
  unfold ui_bind at 1; rewrite st_columns_21; cbv beta iota.
  unfold ui_bind at 1; rewrite ui_emit_out; cbv beta iota.
  unfold ui_bind at 1; rewrite ui_emit_out; cbv beta iota.
  unfold ui_bind at 1; rewrite Hp; cbv beta iota.
  unfold ui_bind at 1; rewrite show_product_images_elements; cbv beta iota.
  rewrite ui_emit_out, <- !app_assoc; reflexivity.
Qed.

Lemma build_sun_ok (v : table) :
  exists recs, build_sunscreen_comparison v = inr recs /\
    (columns v <> [] -> List.length recs = List.length (rows v)).
Proof.
  unfold build_sunscreen_comparison; destruct (df_empty v) eqn:E.
  - exists []; split; [reflexivity|]; intros Hc.
    unfold df_empty in E; apply orb_prop in E as [E|E]; apply Nat.eqb_eq in E.
    + destruct (columns v); [contradiction|discriminate].
    + rewrite E; reflexivity.
  - destruct (mapM_Forall2 sun_row (fun _ _ => True) (map (row_of v) (rows v)))
      as (recs & Er & F).
    { intros x; destruct (sun_row_ok x) as (rec & H & _); eauto. }
    exists recs; split; [exact Er|]; intros _.
    rewrite <- (Forall2_length F), length_map; reflexivity.
Qed.

Lemma build_cloth_ok (v : table) :
  exists recs, build_clothing_comparison v = inr recs /\
    (columns v <> [] -> List.length recs = List.length (rows v)).
Proof.
  unfold build_clothing_comparison; destruct (df_empty v) eqn:E.
  - exists []; split; [reflexivity|]; intros Hc.
    unfold df_empty in E; apply orb_prop in E as [E|E]; apply Nat.eqb_eq in E.
    + destruct (columns v); [contradiction|discriminate].
    + rewrite E; reflexivity.
  - destruct (mapM_Forall2 cloth_row (fun _ _ => True) (map (row_of v) (rows v)))
      as (recs & Er & F).
    { intros x; destruct (cloth_row_ok x) as (rec & H & _); eauto. }
    exists recs; split; [exact Er|]; intros _.
    rewrite <- (Forall2_length F), length_map; reflexivity.
Qed.

Lemma sun_panel_out (v : table) :
  exists recs, build_sunscreen_comparison v = inr recs /\
    (columns v <> [] -> List.length recs = List.length (rows v)) /\
    forall o, sun_comparison_panel v o =
      (o ++ (if (List.length recs <? 2)%nat then [] else sun_panel_elements recs),
       inr tt).
Proof.
  destruct (build_sun_ok v) as (recs & E & L).
  exists recs; split; [exact E|]; split; [exact L|]; intros o.
  unfold sun_comparison_panel, ui_bind; rewrite E; cbn [ui_lift ui_ret].
  destruct (List.length recs <? 2)%nat eqn:Hl.
  - rewrite app_nil_r; apply show_sun_small, Nat.ltb_lt, Hl.
  - apply show_sun_panel, Nat.ltb_ge, Hl.
Qed.

Lemma cloth_panel_out (v : table) :
  exists recs, build_clothing_comparison v = inr recs /\
    (columns v <> [] -> List.length recs = List.length (rows v)) /\
    forall o, cloth_comparison_panel v o =
      (o ++ (if (List.length recs <? 2)%nat then [] else cloth_panel_elements recs),
       inr tt).
Proof.
  destruct (build_cloth_ok v) as (recs & E & L).
  exists recs; split; [exact E|]; split; [exact L|]; intros o.
  unfold cloth_comparison_panel, ui_bind; rewrite E; cbn [ui_lift ui_ret].
  destruct (List.length recs <? 2)%nat eqn:Hl.
  - rewrite app_nil_r; apply show_cloth_small, Nat.ltb_lt, Hl.
  - apply show_cloth_panel, Nat.ltb_ge, Hl.
Qed.

Lemma tab_panel_ok (ts : tab_spec) (v : table) :
  ts = sun_tab \/ ts = cloth_tab ->
  exists pe, (forall o, ts_panel ts v o = (o ++ pe, inr tt)) /\
    (columns v <> [] ->
       (In (Markdown (u "### Comparison panel")) pe <-> (2 <= List.length (rows v))%nat)).
Proof.
  intros [-> | ->]; cbn [ts_panel sun_tab cloth_tab].
  - destruct (sun_panel_out v) as (recs & _ & L & H).
    eexists; split; [exact H|]; intros Hc; rewrite <- (L Hc).
    destruct (List.length recs <? 2)%nat eqn:E.
    + apply Nat.ltb_lt in E; split; [intros []|lia].
    + apply Nat.ltb_ge in E; split; [intros _; exact E|intros _; left; reflexivity].
  - destruct (cloth_panel_out v) as (recs & _ & L & H).
    eexists; split; [exact H|]; intros Hc; rewrite <- (L Hc).
    destruct (List.length recs <? 2)%nat eqn:E.
    + apply Nat.ltb_lt in E; split; [intros []|lia].
    + apply Nat.ltb_ge in E; split; [intros _; exact E|intros _; left; reflexivity].
Qed.

Lemma image_strip_no_heading (app_dir : path) (image_ok : pystr -> bool)
    (df : table) (kind : pystr) :
  ~ In (Markdown (u "### Comparison panel")) (image_strip_elements app_dir image_ok df kind).
Proof.
  unfold image_strip_elements; cbv zeta.
  destruct (_ || _ || _); [intros []|].
  intros [H|[H|H]]; [inversion H; vm_compute in H1; discriminate|discriminate|].
  apply in_map_iff in H as (ir & H & _).
  unfold image_element in H; destruct (image_ok _); discriminate.
Qed.

Lemma df_empty_columns (t : table) : df_empty t = false -> columns t <> [].
Proof.
  unfold df_empty; intros H E; rewrite E in H; discriminate.
Qed.

Lemma mask_filter_false {A} (m : list bool) (l : list A) :
  forallb negb m = true -> mask_filter m l = [].
Proof.
  revert l; induction m as [|b m IH]; intros [|x l] H; try reflexivity.
  simpl in H; apply andb_prop in H as [Hb Hm]; destruct b; [discriminate|].
  apply IH, Hm.
Qed.

(** X6: neither tab ever raises: whatever the loaded table, the chosen
    labels, the toggle and whether Streamlit can show each picture, the
    body of the tab runs to its end. *)
Theorem tab_never_raises (ts : tab_spec) (app_dir : path) (image_ok : pystr -> bool)
    (t : table) (chosen : list pystr) (show_all : bool) (out : list element) :
  ts = sun_tab \/ ts = cloth_tab ->
  snd (render_tab ts app_dir image_ok t chosen show_all out) = inr tt.
Proof.
  intros Hts; destruct (df_empty t) eqn:Ht.
  - unfold render_tab; rewrite Ht; reflexivity.
  - set (view := if show_all then t
                 else loc_mask t (isin (labels_of t (ts_kind ts)) chosen)).
    destruct (negb show_all && (1 <? List.length (rows view))%nat
              && (List.length (rows view) <=? 3)%nat) eqn:C.
    + destruct (tab_panel_ok ts view Hts) as (pe & Hp & _).
      rewrite (render_tab_out ts app_dir image_ok t chosen show_all out pe Ht);
        [reflexivity|].
      intros o; fold view; rewrite C; apply Hp.
    + rewrite (render_tab_out ts app_dir image_ok t chosen show_all out [] Ht);
        [reflexivity|].
      intros o; fold view; rewrite C, app_nil_r; reflexivity.
Qed.

Lemma tab_never_raises_witness :
  (sun_tab = sun_tab \/ sun_tab = cloth_tab) /\
  snd (render_tab sun_tab app_folder (fun _ => false) twin_table
         [u "A — X — 50 ml"] false []) = inr tt.
Proof.
  assert (H : sun_tab = sun_tab \/ sun_tab = cloth_tab) by (left; reflexivity).
  split; [exact H|].
  exact (tab_never_raises sun_tab app_folder (fun _ => false) twin_table
           [u "A — X — 50 ml"] false [] H).
Defined.

(** X7: in a tab with data, the comparison panel is shown exactly when
    the show-all toggle is off and the selection view holds two or three
    rows (one row, none, more than three rows sharing chosen labels, or
    the toggle on: no panel). *)
Theorem comparison_panel_when_two_or_three (ts : tab_spec) (app_dir : path)
    (image_ok : pystr -> bool) (t : table) (chosen : list pystr) (show_all : bool) :
  ts = sun_tab \/ ts = cloth_tab -> df_empty t = false ->
  let view := if show_all then t
              else loc_mask t (isin (labels_of t (ts_kind ts)) chosen) in
  In (Markdown (u "### Comparison panel"))
     (fst (render_tab ts app_dir image_ok t chosen show_all [])) <->
  show_all = false /\ (2 <= List.length (rows view) <= 3)%nat.
Proof.
  intros Hts Ht view.
  assert (Hc : columns view <> []).
  { unfold view; destruct show_all; [|simpl]; apply df_empty_columns, Ht. }
  assert (Rest : forall pe,
    In (Markdown (u "### Comparison panel"))
       ([Columns [2; 1];
         Multiselect 0 (ts_select_label ts) (labels_of t (ts_kind ts)) 3 (ts_select_key ts);
         Toggle 1 (ts_toggle_label ts) false (ts_toggle_key ts)]
        ++ pe ++ image_strip_elements app_dir image_ok view (ts_kind ts)
        ++ [DataFrameEl (safe_select_columns view (ts_display_cols ts)) true true])
    <-> In (Markdown (u "### Comparison panel")) pe).
  { intros pe; split.
    - intros H; apply in_app_or in H as [H|H];
        [destruct H as [H|[H|[H|[]]]]; discriminate|].
      apply in_app_or in H as [H|H]; [exact H|].
      apply in_app_or in H as [H|H];
        [exfalso; exact (image_strip_no_heading _ _ _ _ H)|].
      destruct H as [H|[]]; discriminate.
    - intros H; apply in_or_app; right; apply in_or_app; left; exact H. }
  destruct (negb show_all && (1 <? List.length (rows view))%nat
            && (List.length (rows view) <=? 3)%nat) eqn:C.
  - destruct (tab_panel_ok ts view Hts) as (pe & Hp & Hin).
    rewrite (render_tab_out ts app_dir image_ok t chosen show_all [] pe Ht);
      [|intros o; fold view; rewrite C; apply Hp].
    cbn [fst]; fold view; rewrite app_nil_l, Rest, (Hin Hc).
    apply andb_prop in C as [C C3]; apply andb_prop in C as [C1 C2].
    apply negb_true_iff in C1; apply Nat.ltb_lt in C2; apply Nat.leb_le in C3.
    split; [intros H; split; [exact C1|lia]|intros _; lia].
  - rewrite (render_tab_out ts app_dir image_ok t chosen show_all [] [] Ht);
      [|intros o; fold view; rewrite C, app_nil_r; reflexivity].
    cbn [fst]; fold view; rewrite app_nil_l, Rest; split; [intros []|].
    intros [H1 H2]; subst show_all; cbn [negb andb] in C.
    destruct H2 as [H2 H3].
    apply Nat.ltb_lt in H2; apply Nat.leb_le in H3; rewrite H2, H3 in C; discriminate.
Qed.

Lemma comparison_panel_when_two_or_three_witness :
  (sun_tab = sun_tab \/ sun_tab = cloth_tab) /\ df_empty twin_table = false /\
  In (Markdown (u "### Comparison panel"))
     (fst (render_tab sun_tab app_folder (fun _ => true) twin_table
             [u "A — X — 50 ml"] false [])).
Proof.
  assert (H : sun_tab = sun_tab \/ sun_tab = cloth_tab) by (left; reflexivity).
  assert (He : df_empty twin_table = false) by reflexivity.
  split; [exact H|]; split; [exact He|].
  apply (proj2 (comparison_panel_when_two_or_three sun_tab app_folder (fun _ => true)
                  twin_table [u "A — X — 50 ml"] false H He)).
  split; [reflexivity|]; vm_compute; lia.
Defined.

Lemma image_strip_no_rows (app_dir : path) (image_ok : pystr -> bool)
    (df : table) (kind : pystr) :
  rows df = [] -> image_strip_elements app_dir image_ok df kind = [].
Proof.
  intros H; unfold image_strip_elements; cbv zeta.
  replace (df_empty df) with true
    by (unfold df_empty; rewrite H, orb_true_r; reflexivity); reflexivity.
Qed.

(** X8: before any choice (nothing chosen, toggle off, the widgets'
    defaults) a tab with data shows the two widgets and the patient-facing table
    with the display columns but no row: no comparison panel and no
    image strip. *)
Theorem initial_view_empty_table (ts : tab_spec) (app_dir : path)
    (image_ok : pystr -> bool) (t : table) :
  df_empty t = false ->
  render_tab ts app_dir image_ok t [] false [] =
  ([Columns [2; 1];
    Multiselect 0 (ts_select_label ts) (labels_of t (ts_kind ts)) 3 (ts_select_key ts);
    Toggle 1 (ts_toggle_label ts) false (ts_toggle_key ts);
    DataFrameEl (safe_select_columns (mk_table (columns t) [] []) (ts_display_cols ts))
                true true], inr tt) /\
  rows (safe_select_columns (mk_table (columns t) [] []) (ts_display_cols ts)) = [].
Proof.
  intros Ht.
  assert (Hv : loc_mask t (isin (labels_of t (ts_kind ts)) []) = mk_table (columns t) [] []).
  { unfold loc_mask; rewrite !mask_filter_false; [reflexivity| |];
      unfold isin; induction (labels_of t (ts_kind ts)); simpl; auto. }
  split.
  - rewrite (render_tab_out ts app_dir image_ok t [] false [] [] Ht).
    + cbv zeta; rewrite Hv, image_strip_no_rows by reflexivity; reflexivity.
    + intros o; cbv zeta; rewrite Hv; rewrite app_nil_r; reflexivity.
  - unfold safe_select_columns; destruct (is_empty _); reflexivity.
Qed.

Lemma initial_view_empty_table_witness :
  df_empty twin_table = false /\
  rows (safe_select_columns (mk_table (columns twin_table) [] []) SUN_DISPLAY_COLS) = [].
Proof.
  assert (H : df_empty twin_table = false) by reflexivity.
  split; [exact H|].
  exact (proj2 (initial_view_empty_table sun_tab app_folder (fun _ => true) twin_table H)).
Defined.

Lemma select_row_length (cols present : list pystr) (r : list pystr) :
  List.length (flat_map (fun c => map (fun i => nth i r []) (positions c cols)) present) =
  List.length (flat_map (fun c => map (fun _ => c) (positions c cols)) present).
Proof.
  induction present as [|c present IH]; [reflexivity|]; simpl.
  rewrite !length_app, !length_map, IH; reflexivity.
Qed.

(** X9: whatever the table (also with repeated column names) and the
    wanted names, [safe_select_columns] never outputs a column that was
    not asked for, keeps the index and every row, and gives each row as
    many cells as the result has columns. *)
Theorem safe_select_columns_only_wanted (df : table) (cols : list pystr) :
  let out := safe_select_columns df cols in
  (forall c, In c (columns out) -> In c cols) /\
  index out = index df /\
  List.length (rows out) = List.length (rows df) /\
  Forall (fun r => List.length r = List.length (columns out)) (rows out).
Proof.
  intros out; unfold out, safe_select_columns.
  destruct (is_empty _) eqn:E; cbn [columns index rows].
  - split; [intros c []|]; split; [reflexivity|]; split; [apply length_map|].
    apply Forall_forall; intros r Hr; apply in_map_iff in Hr as (x & <- & _);
      reflexivity.
  - split; [|split; [reflexivity|split; [apply length_map|]]].
    + intros c Hc; apply in_flat_map in Hc as (c' & Hc' & Hin).
      apply in_map_iff in Hin as (i & <- & _).
      apply filter_In in Hc' as [Hc' _]; exact Hc'.
    + apply Forall_forall; intros r Hr; apply in_map_iff in Hr as (x & <- & _).
      apply select_row_length.
Qed.

(** * Loader and cache *)

(** X10: a load that raises is not cached: the cache is unchanged, one
    read was made, and once the file is fixed on disk the next call with
    the same arguments reads it again. *)
Theorem failed_load_retried (w : world) (path sheet : pystr) (e : exn)
    (files' : list (pystr * xlsx)) :
  snd (cached_load_sheet w path sheet) = inl e ->
  let w1 := fst (cached_load_sheet w path sheet) in
  cache w1 = cache w /\ reads w1 = S (reads w) /\ fs w1 = fs w /\
  snd (cached_load_sheet (mk_world files' (cache w1) (reads w1)) path sheet) =
  load_sheet files' path sheet.
Proof.
  intros H w1; unfold w1; clear w1.
  rewrite cached_load_sheet_result in H.
  destruct (assoc key_eqb (path, sheet) (cache w)) eqn:Ec; [discriminate|].
  unfold cached_load_sheet; rewrite Ec, H; cbn.
  split; [reflexivity|]; split; [reflexivity|]; split; [reflexivity|].
  rewrite Ec; destruct (load_sheet files' path sheet); reflexivity.
Qed.

Definition fixed_world : list (pystr * xlsx) := fs catalogue_world.

Lemma failed_load_retried_witness :
  snd (cached_load_sheet no_file_world (DATA_XLSX []) SHEET_SUN) =
    inl (FileNotFoundError (DATA_XLSX [])) /\
  snd (cached_load_sheet
         (mk_world fixed_world (cache (fst (cached_load_sheet no_file_world (DATA_XLSX []) SHEET_SUN)))
                   (reads (fst (cached_load_sheet no_file_world (DATA_XLSX []) SHEET_SUN))))
         (DATA_XLSX []) SHEET_SUN) =
  load_sheet fixed_world (DATA_XLSX []) SHEET_SUN.
Proof.
  assert (H : snd (cached_load_sheet no_file_world (DATA_XLSX []) SHEET_SUN) =
              inl (FileNotFoundError (DATA_XLSX []))) by reflexivity.
  split; [exact H|].
  exact (proj2 (proj2 (proj2 (failed_load_retried no_file_world (DATA_XLSX []) SHEET_SUN
                                _ fixed_world H)))).
Defined.

Lemma cached_load_reads (w : world) (path sheet : pystr) :
  (reads (fst (cached_load_sheet w path sheet)) <= S (reads w))%nat.
Proof.
  unfold cached_load_sheet; destruct (assoc _ _ _); [simpl; lia|].
  destruct (load_sheet _ _ _); simpl; lia.
Qed.

Lemma cached_load_hit (w : world) (path sheet : pystr) (t : table) :
  assoc key_eqb (path, sheet) (cache w) = Some t ->
  cached_load_sheet w path sheet = (w, inr t).
Proof. intros H; unfold cached_load_sheet; rewrite H; reflexivity. Qed.

Lemma cached_load_stores (w w' : world) (path sheet : pystr) (t : table) :
  cached_load_sheet w path sheet = (w', inr t) ->
  assoc key_eqb (path, sheet) (cache w') = Some t.
Proof.
  unfold cached_load_sheet; destruct (assoc key_eqb (path, sheet) (cache w)) eqn:E.
  - intros H; inversion H; subst; exact E.
  - destruct (load_sheet (fs w) path sheet); intros H; inversion H; subst; simpl.
    unfold key_eqb; simpl; rewrite !streq_refl; reflexivity.
Qed.

(** X11: one run of the script reads the workbook at most twice; after a
    run in which both sheets loaded (no error line), every later run
    reads nothing, leaves the process state unchanged and shows the same
    two tables. *)
Theorem rerun_reads_nothing (app_dir : pystr) (w : world) (ui ui' : ui_input) :
  (reads (fst (run_app app_dir w ui)) <= S (S (reads w)))%nat /\
  (errors (snd (run_app app_dir w ui)) = [] ->
   let w2 := fst (run_app app_dir w ui) in
   fst (run_app app_dir w2 ui') = w2 /\
   suns (snd (run_app app_dir w2 ui')) = suns (snd (run_app app_dir w ui)) /\
   cloth (snd (run_app app_dir w2 ui')) = cloth (snd (run_app app_dir w ui))).
Proof.
  unfold run_app, load_or_report.
  destruct (cached_load_sheet w (DATA_XLSX app_dir) SHEET_SUN) as [w1 r1] eqn:E1.
  destruct (cached_load_sheet w1 (DATA_XLSX app_dir) SHEET_CLO) as [w2 r2] eqn:E2.
  pose proof (cached_load_reads w (DATA_XLSX app_dir) SHEET_SUN) as R1.
  pose proof (cached_load_reads w1 (DATA_XLSX app_dir) SHEET_CLO) as R2.
  rewrite E1 in R1; rewrite E2 in R2; cbn [fst] in R1, R2.
  destruct (report SHEET_SUN r1) as [s1 e1] eqn:P1.
  destruct (report SHEET_CLO r2) as [c2 e2] eqn:P2.
  cbn [fst snd errors suns cloth]; split; [lia|].
  intros He; apply app_eq_nil in He as [He1 He2]; subst e1 e2.
  destruct r1 as [x1|t1]; [discriminate|]; destruct r2 as [x2|t2]; [discriminate|].
  cbn in P1, P2; inversion P1; inversion P2; subst s1 c2.
  assert (C1 : assoc key_eqb (DATA_XLSX app_dir, SHEET_SUN) (cache w2) = Some t1).
  { apply (cache_entry_kept w1 w2).
    - apply (reach_load w1 (DATA_XLSX app_dir) SHEET_CLO); rewrite E2; apply reach_refl.
    - exact (cached_load_stores _ _ _ _ _ E1). }
  pose proof (cached_load_stores _ _ _ _ _ E2) as C2.
  rewrite (cached_load_hit _ _ _ _ C1), (cached_load_hit _ _ _ _ C2); cbn.
  repeat split.
Qed.

Definition both_sheets_world : world :=
  mk_world [(DATA_XLSX [], Workbook
              [(SHEET_SUN, mk_raw_sheet [u "Product Brand"] [0] [[Some (u "A")]]);
               (SHEET_CLO, mk_raw_sheet [u "Product Brand"] [0] [[Some (u "B")]])])]
           [] 0.

Lemma rerun_reads_nothing_witness :
  errors (snd (run_app [] both_sheets_world (mk_ui_input [] false [] false))) = [] /\
  fst (run_app [] (fst (run_app [] both_sheets_world (mk_ui_input [] false [] false)))
               (mk_ui_input [] true [] true)) =
  fst (run_app [] both_sheets_world (mk_ui_input [] false [] false)).
Proof.
  assert (H : errors (snd (run_app [] both_sheets_world (mk_ui_input [] false [] false))) = [])
    by (vm_compute; reflexivity).
  split; [exact H|].
  exact (proj1 (proj2 (rerun_reads_nothing [] both_sheets_world
                         (mk_ui_input [] false [] false) (mk_ui_input [] true [] true)) H)).
Defined.

(** * Value parser: padding, suffixes and special literals *)

Lemma forallb_rev (p : Z -> bool) (l : pystr) : forallb p (rev l) = forallb p l.
Proof.
  induction l as [|c l IH]; simpl; [reflexivity|].
  rewrite forallb_app, IH; simpl; rewrite andb_true_r, andb_comm; reflexivity.
Qed.

Lemma drop_while_app_stop (p : Z -> bool) (v r : pystr) :
  forallb p v = false -> drop_while p (v ++ r) = drop_while p v ++ r.
Proof.
  induction v as [|c v IH]; simpl; [discriminate|].
  destruct (p c); simpl; [exact IH|reflexivity].
Qed.

(** Characters of the stripped set around a text do not change its strip. *)
Lemma strip_chars_pad (p : Z -> bool) (ws1 v ws2 : pystr) :
  forallb p ws1 = true -> forallb p ws2 = true ->
  strip_chars p (ws1 ++ v ++ ws2) = strip_chars p v.
Proof.
  intros H1 H2; unfold strip_chars; rewrite drop_while_app by exact H1.
  destruct (forallb p v) eqn:Hv.
  - rewrite drop_while_app by exact Hv.
    rewrite (drop_while_all p ws2 H2), (drop_while_all p v Hv); reflexivity.
  - rewrite drop_while_app_stop by exact Hv.
    rewrite rev_app_distr, drop_while_app by (rewrite forallb_rev; exact H2).
    reflexivity.
Qed.

(** X12: [to_float] ignores whitespace around a cell: padding a text on
    either side with any of Python's whitespace characters (tabs, line
    breaks, no-break spaces, ...) does not change its result. *)
Theorem to_float_ignores_padding (ws1 v ws2 : pystr) :
  forallb is_space ws1 = true -> forallb is_space ws2 = true ->
  to_float (Some (ws1 ++ v ++ ws2)) = to_float (Some v).
Proof.
  intros H1 H2; unfold to_float, strip.
  rewrite strip_chars_pad by assumption; reflexivity.
Qed.

Lemma to_float_ignores_padding_witness :
  forallb is_space [160; 9] = true /\ forallb is_space [32; 10] = true /\
  to_float (Some ([160; 9] ++ u "12%" ++ [32; 10])) = to_float (Some (u "12%")).
Proof.
  split; [reflexivity|]; split; [reflexivity|].
  apply to_float_ignores_padding; reflexivity.
Defined.

Lemma endswith_snoc (s : pystr) (c ch : Z) : endswith (s ++ [c]) ch = (c =? ch).
Proof. unfold endswith; rewrite rev_app_distr; reflexivity. Qed.

Lemma drop_last_snoc (s : pystr) (c : Z) : drop_last (s ++ [c]) = s.
Proof. unfold drop_last; rewrite rev_app_distr; simpl; apply rev_involutive. Qed.

Lemma endswith_decimal (neg : bool) (ip fp : pystr) (ch : Z) :
  ip <> [] -> forallb is_digit ip = true -> forallb is_digit fp = true ->
  is_digit ch = false -> endswith (decimal_literal neg ip fp) ch = false.
Proof.
  intros Hne Hip Hfp Hch.
  destruct (decimal_literal_last neg ip fp Hne Hip Hfp) as (d & r & Er & Hd).
  unfold endswith; rewrite Er.
  destruct (d =? ch) eqn:E; [apply Z.eqb_eq in E; congruence|reflexivity].
Qed.

Lemma lit_not_n (c : Z) : lit_char c = true -> c <> 110.
Proof.
  unfold lit_char; intros H1; apply orb_prop in H1 as [H1|H1];
    [apply orb_prop in H1 as [H1|H1]|].
  - digit_cases H1; lia.
  - apply Z.eqb_eq in H1; lia.
  - apply Z.eqb_eq in H1; lia.
Qed.

Lemma marker_head (c : Z) (r : pystr) : c <> 110 -> is_na_marker (c :: r) = false.
Proof.
  intros H; unfold is_na_marker; rewrite u_na, u_n_a, u_none.
  rewrite !streq_head by exact H; reflexivity.
Qed.

Lemma strip_id (s : pystr) :
  (forall c r, s = c :: r -> is_space c = false) ->
  (forall c r, rev s = c :: r -> is_space c = false) -> strip s = s.
Proof.
  destruct s as [|c r]; intros H1 H2; [reflexivity|].
  unfold strip; apply strip_chars_id; [eapply H1; reflexivity|exact H2].
Qed.

Definition plus_or_pct (c : Z) : bool := (c =? 43) || (c =? 37).

(** A decimal literal followed by "+" and "%" marks is already stripped
    and is no missing-value marker. *)
Lemma strip_decimal_marks (neg : bool) (ip fp sfx : pystr) :
  ip <> [] -> forallb is_digit ip = true -> forallb is_digit fp = true ->
  sfx <> [] -> forallb plus_or_pct sfx = true ->
  strip (decimal_literal neg ip fp ++ sfx) = decimal_literal neg ip fp ++ sfx /\
  is_empty (decimal_literal neg ip fp ++ sfx) = false /\
  is_na_marker (lower (decimal_literal neg ip fp ++ sfx)) = false.
Proof.
  intros Hne Hip Hfp Hs Hp.
  pose proof (decimal_literal_lit neg ip fp Hip Hfp) as Hl.
  destruct (decimal_literal neg ip fp) as [|h t] eqn:Ed.
  { destruct ip; [contradiction|]; destruct neg; discriminate. }
  simpl in Hl; apply andb_prop in Hl as [Hh _].
  split; [|split; [reflexivity|]].
  - apply strip_id.
    + intros c r E; inversion E; subst; apply is_space_lit; exact Hh.
    + intros c r E; rewrite rev_app_distr in E.
      destruct (rev sfx) as [|x xs] eqn:Er.
      * apply (f_equal (@rev Z)) in Er; rewrite rev_involutive in Er; contradiction.
      * simpl in E; inversion E; subst.
        assert (Hx : plus_or_pct c = true).
        { rewrite forallb_forall in Hp; apply Hp, in_rev; rewrite Er; left; reflexivity. }
        unfold plus_or_pct in Hx; apply orb_prop in Hx as [Hx|Hx];
          apply Z.eqb_eq in Hx; subst; reflexivity.
  - unfold lower; rewrite map_app; simpl.
    replace (if (65 <=? h) && (h <=? 90) then h + 32 else h) with h.
    + apply marker_head, lit_not_n; exact Hh.
    + unfold lit_char in Hh; apply orb_prop in Hh as [Hh|Hh];
        [apply orb_prop in Hh as [Hh|Hh]|].
      * digit_cases Hh; reflexivity.
      * apply Z.eqb_eq in Hh; subst; reflexivity.
      * apply Z.eqb_eq in Hh; subst; reflexivity.
Qed.

Lemma to_float_decimal_marks (neg : bool) (ip fp sfx : pystr) :
  ip <> [] -> forallb is_digit ip = true -> forallb is_digit fp = true ->
  sfx <> [] -> forallb plus_or_pct sfx = true ->
  to_float (Some (decimal_literal neg ip fp ++ sfx)) =
  inr (match py_float (strip_annotations (decimal_literal neg ip fp ++ sfx)) with
       | inr f => Some f
       | inl _ => None
       end).
Proof.
  intros Hne Hip Hfp Hs Hp.
  destruct (strip_decimal_marks neg ip fp sfx Hne Hip Hfp Hs Hp) as (E1 & E2 & E3).
  rewrite to_float_some; cbv zeta; rewrite E1, E2, E3; reflexivity.
Qed.

(** The digits of a decimal literal followed by one more "+" or "%" do
    not parse. *)
Lemma parse_unsigned_marked (n : bool) (ip fp : pystr) (x : Z) :
  ip <> [] -> forallb is_digit ip = true -> forallb is_digit fp = true ->
  plus_or_pct x = true ->
  parse_unsigned n (ip ++ (if is_empty fp then [] else 46 :: fp) ++ [x]) = None.
Proof.
  intros Hne Hip Hfp Hx.
  assert (Ex : x = 43 \/ x = 37).
  { unfold plus_or_pct in Hx; apply orb_prop in Hx as [Hx|Hx];
      apply Z.eqb_eq in Hx; auto. }
  assert (Hlow : lower (ip ++ (if is_empty fp then [] else 46 :: fp) ++ [x]) =
                 ip ++ (if is_empty fp then [] else 46 :: fp) ++ [x]).
  { rewrite app_assoc; unfold lower; rewrite map_app.
    change (map _ (ip ++ (if is_empty fp then [] else 46 :: fp)))
      with (lower (decimal_literal false ip fp)).
    rewrite lower_lit by (apply decimal_literal_lit; assumption).
    destruct Ex as [->| ->]; reflexivity. }
  assert (Hfd : first_digit (ip ++ (if is_empty fp then [] else 46 :: fp) ++ [x]) = true).
  { destruct ip as [|c ip']; [contradiction|]; simpl in Hip |- *.
    apply andb_prop in Hip; tauto. }
  unfold parse_unsigned; rewrite Hlow.
  rewrite (streq_first_digit _ (u "inf")), (streq_first_digit _ (u "infinity")),
    (streq_first_digit _ (u "nan")) by (exact Hfd || reflexivity).
  cbn [orb].
  rewrite take_while_app, drop_while_app by exact Hip.
  assert (Hlen : forall l, (List.length (ip ++ l) =? 0)%nat = false).
  { intros l; destruct ip; [contradiction|]; reflexivity. }
  destruct fp as [|f fp'].
  - cbn [is_empty app]; destruct Ex as [->| ->]; cbn [take_while drop_while];
      replace (is_digit _) with false by reflexivity;
      destruct (_ =? 0)%nat; reflexivity.
  - cbn [is_empty]; cbn [app take_while drop_while].
    replace (is_digit 46) with false by reflexivity.
    change (f :: fp' ++ [x]) with ((f :: fp') ++ [x]).
    rewrite drop_while_app by exact Hfp.
    destruct Ex as [->| ->]; cbn [drop_while];
      replace (is_digit _) with false by reflexivity;
      destruct (_ =? 0)%nat; reflexivity.
Qed.

Lemma py_float_decimal_marked (neg : bool) (ip fp : pystr) (x : Z) :
  ip <> [] -> forallb is_digit ip = true -> forallb is_digit fp = true ->
  plus_or_pct x = true ->
  exists e, py_float (decimal_literal neg ip fp ++ [x]) = inl e.
Proof.
  intros Hne Hip Hfp Hx.
  assert (Hx95 : (95 =? x) = false).
  { unfold plus_or_pct in Hx; apply orb_prop in Hx as [Hx|Hx];
      apply Z.eqb_eq in Hx; subst; reflexivity. }
  assert (Hu : existsb (Z.eqb 95) (decimal_literal neg ip fp ++ [x]) = false).
  { rewrite existsb_app, no_underscore_lit by (apply decimal_literal_lit; assumption).
    cbn [existsb orb]; rewrite Hx95; reflexivity. }
  destruct (strip_decimal_marks neg ip fp [x] Hne Hip Hfp ltac:(discriminate)
              ltac:(simpl; rewrite Hx; reflexivity)) as (Hs & _).
  unfold py_float; rewrite Hu; cbn [andb].
  rewrite no_underscore_filter by exact Hu.
  rewrite Hs; unfold parse_float_body, decimal_literal.
  rewrite <- !app_assoc.
  destruct neg.
  - cbn [app split_sign]; rewrite Z.eqb_refl.
    rewrite parse_unsigned_marked by assumption; eexists; reflexivity.
  - cbn [app]; rewrite split_sign_digit.
    + rewrite parse_unsigned_marked by assumption; eexists; reflexivity.
    + destruct ip as [|c ip']; [contradiction|]; simpl in Hip |- *.
      apply andb_prop in Hip; tauto.
Qed.

(** X13: [to_float] strips at most one "+" and then at most one "%", in
    that order: on a decimal literal d, "d+", "d%" and "d%+" read as d,
    while "d+%", "d++" and "d%%" are absent. *)
Theorem to_float_suffix_order (neg : bool) (ip fp : pystr) :
  ip <> [] -> forallb is_digit ip = true -> forallb is_digit fp = true ->
  let d := decimal_literal neg ip fp in
  to_float (Some (d ++ u "+")) = to_float (Some d) /\
  to_float (Some (d ++ u "%")) = to_float (Some d) /\
  to_float (Some (d ++ u "%+")) = to_float (Some d) /\
  to_float (Some (d ++ u "+%")) = inr None /\
  to_float (Some (d ++ u "++")) = inr None /\
  to_float (Some (d ++ u "%%")) = inr None.
Proof.
  intros Hne Hip Hfp d.
  assert (N43 : endswith d 43 = false) by (apply endswith_decimal; auto).
  assert (N37 : endswith d 37 = false) by (apply endswith_decimal; auto).
  assert (Hd : to_float (Some d) =
               inr (match py_float d with inr f => Some f | inl _ => None end)).
  { unfold d; rewrite to_float_decimal, py_float_decimal by assumption; reflexivity. }
  assert (Bad : forall x, plus_or_pct x = true ->
            match py_float (d ++ [x]) with inr f => Some f | inl _ => None end = None).
  { intros x Hx; destruct (py_float_decimal_marked neg ip fp x Hne Hip Hfp Hx) as [e E].
    unfold d; rewrite E; reflexivity. }
  change (u "+") with [43]; change (u "%") with [37]; change (u "%+") with [37; 43];
    change (u "+%") with [43; 37]; change (u "++") with [43; 43];
    change (u "%%") with [37; 37].
  unfold d; rewrite !to_float_decimal_marks by (assumption || discriminate || reflexivity).
  fold d; rewrite Hd.
  unfold strip_annotations.
  change [37; 43] with ([37] ++ [43]); change [43; 37] with ([43] ++ [37]);
    change [43; 43] with ([43] ++ [43]); change [37; 37] with ([37] ++ [37]).
  rewrite !app_assoc, !endswith_snoc, !drop_last_snoc.
  cbn [Z.eqb Pos.eqb].
  rewrite !endswith_snoc, !drop_last_snoc, N37; cbn [Z.eqb Pos.eqb].
  rewrite ?drop_last_snoc.
  split; [reflexivity|]; split; [reflexivity|]; split; [reflexivity|].
  split; [|split]; f_equal; apply Bad; reflexivity.
Qed.

Lemma to_float_suffix_order_witness :
  forallb is_digit (u "30") = true /\ forallb is_digit [] = true /\
  to_float (Some (decimal_literal false (u "30") [] ++ u "+%")) = inr None.
Proof.
  split; [reflexivity|]; split; [reflexivity|].
  exact (proj1 (proj2 (proj2 (proj2 (to_float_suffix_order false (u "30") []
           ltac:(discriminate) eq_refl eq_refl))))).
Defined.

Definition is_letter (c : Z) : bool :=
  ((65 <=? c) && (c <=? 90)) || ((97 <=? c) && (c <=? 122)).

Definition is_lower_letter (c : Z) : bool := (97 <=? c) && (c <=? 122).

Lemma lower_letters (s t : pystr) :
  lower s = t -> forallb is_lower_letter t = true -> forallb is_letter s = true.
Proof.
  revert t; induction s as [|c s IH]; intros t E H; [reflexivity|].
  destruct t as [|d t]; [discriminate|]; inversion E as [[Ec Es]].
  simpl in H; apply andb_prop in H as [Hd Ht].
  simpl; rewrite (IH t Es Ht), andb_true_r.
  unfold is_lower_letter, is_letter in *; rewrite <- Ec in Hd.
  destruct ((65 <=? c) && (c <=? 90)) eqn:Hc; [reflexivity|].
  rewrite Hd, orb_true_r; reflexivity.
Qed.

Lemma letter_facts (c : Z) :
  is_letter c = true ->
  is_space c = false /\ c <> 43 /\ c <> 37 /\ c <> 45 /\ c <> 95.
Proof.
  unfold is_letter; intros H.
  assert (R : (65 <= c <= 90) \/ (97 <= c <= 122)).
  { apply orb_prop in H as [H|H]; apply andb_prop in H as [H1 H2];
      apply Z.leb_le in H1; apply Z.leb_le in H2; lia. }
  split; [|lia].
  unfold is_space.
  repeat match goal with
  | |- context [?a <=? ?b] =>
      let E := fresh in destruct (a <=? b) eqn:E;
      [apply Z.leb_le in E|apply Z.leb_gt in E]
  | |- context [?a =? ?b] =>
      let E := fresh in destruct (a =? b) eqn:E;
      [apply Z.eqb_eq in E|apply Z.eqb_neq in E]
  end; cbn; first [reflexivity | lia].
Qed.

(** A text of letters, alone or after a minus sign, reaches [float]
    unchanged; [float] then reads it as [parse_unsigned] does. *)
Lemma to_float_letters (s : pystr) :
  s <> [] -> forallb is_letter s = true -> is_na_marker (lower s) = false ->
  to_float (Some s) =
    inr (match parse_unsigned false s with Some f => Some f | None => None end) /\
  to_float (Some (45 :: s)) =
    inr (match parse_unsigned true s with Some f => Some f | None => None end).
Proof.
  intros Hne Hl Hm.
  assert (All : forall c, In c s -> is_space c = false /\ c <> 43 /\ c <> 37 /\ c <> 45 /\ c <> 95).
  { intros c Hc; apply letter_facts; rewrite forallb_forall in Hl; auto. }
  destruct s as [|h t]; [contradiction|].
  destruct (All h (or_introl eq_refl)) as (Sh & H43 & H37 & H45 & H95).
  assert (Last : forall c r, rev (h :: t) = c :: r -> is_space c = false /\ c <> 43 /\ c <> 37).
  { intros c r E; assert (In c (h :: t)) by (apply in_rev; rewrite E; left; reflexivity).
    destruct (All c H) as (? & ? & ? & _); auto. }
  assert (Hs : strip (h :: t) = h :: t).
  { apply strip_id; [intros c r E; inversion E; subst; exact Sh|].
    intros c r E; exact (proj1 (Last c r E)). }
  assert (Hs' : strip (45 :: h :: t) = 45 :: h :: t).
  { apply strip_id; [intros c r E; inversion E; subst; reflexivity|].
    intros c r E; simpl in E.
    destruct (rev t ++ [h]) as [|c' r'] eqn:Er; [apply app_eq_nil in Er as [_ Er]; discriminate|].
    simpl in E; inversion E; subst.
    change (rev t ++ [h]) with (rev (h :: t)) in Er; exact (proj1 (Last c r' Er)). }
  assert (Ha : forall s, (forall c r, rev s = c :: r -> c <> 43 /\ c <> 37) ->
                strip_annotations s = s).
  { intros s Hr; unfold strip_annotations, endswith.
    destruct (rev s) as [|c r] eqn:E; [rewrite ?E; reflexivity|].
    destruct (Hr c r eq_refl) as [N1 N2].
    rewrite (proj2 (Z.eqb_neq c 43) N1), E, (proj2 (Z.eqb_neq c 37) N2); reflexivity. }
  assert (Hu : existsb (Z.eqb 95) (h :: t) = false).
  { apply not_true_iff_false; intros E; apply existsb_exists in E as (c & Hc & E).
    apply Z.eqb_eq in E; destruct (All c Hc) as (_ & _ & _ & _ & N); congruence. }
  assert (Hsp : split_sign (h :: t) = (false, h :: t)).
  { simpl; rewrite (proj2 (Z.eqb_neq h 45) H45), (proj2 (Z.eqb_neq h 43) H43); reflexivity. }
  split.
  - rewrite to_float_some; cbv zeta; rewrite Hs, Hm; cbn [is_empty orb].
    rewrite Ha by (intros c r E; destruct (Last c r E) as (_ & ? & ?); auto).
    unfold py_float; rewrite Hu; cbn [andb].
    rewrite no_underscore_filter, Hs by exact Hu.
    unfold parse_float_body; rewrite Hsp.
    destruct (parse_unsigned false (h :: t)); reflexivity.
  - rewrite to_float_some; cbv zeta; rewrite Hs'.
    assert (Hm' : is_na_marker (lower (45 :: h :: t)) = false)
      by (unfold lower; cbn [map]; apply marker_head; cbn; lia).
    rewrite Hm'.
    cbn [is_empty orb].
    rewrite Ha.
    2:{ intros c r E; simpl in E.
        destruct (rev t ++ [h]) as [|c' r'] eqn:Er; [apply app_eq_nil in Er as [_ Er]; discriminate|].
        simpl in E; inversion E; subst.
        change (rev t ++ [h]) with (rev (h :: t)) in Er.
        destruct (Last c r' Er) as (_ & ? & ?); auto. }
    assert (Hu' : existsb (Z.eqb 95) (45 :: h :: t) = false).
    { change (existsb (Z.eqb 95) (45 :: h :: t))
        with ((95 =? 45) || existsb (Z.eqb 95) (h :: t)).
      rewrite Hu; reflexivity. }
    unfold py_float; rewrite Hu'; cbn [andb].
    rewrite no_underscore_filter by exact Hu'.
    rewrite Hs'; unfold parse_float_body; cbn [split_sign Z.eqb Pos.eqb].
    destruct (parse_unsigned true (h :: t)); reflexivity.
Qed.

(** X14: Python's special float literals pass through [to_float]: a cell
    reading "nan" in any letter case gives NaN (not absent), "inf" or
    "infinity" in any letter case gives +infinity, and the same after a
    minus sign gives -infinity. *)
Theorem to_float_nan_inf (s : pystr) :
  (lower s = u "nan" -> to_float (Some s) = inr (Some F64NaN)) /\
  (lower s = u "inf" \/ lower s = u "infinity" ->
   to_float (Some s) = inr (Some (F64Inf false)) /\
   to_float (Some (45 :: s)) = inr (Some (F64Inf true))).
Proof.
  assert (Gen : forall t, lower s = t -> forallb is_lower_letter t = true ->
                  is_na_marker t = false -> t <> [] ->
                  to_float (Some s) =
                    inr (match parse_unsigned false s with Some f => Some f | None => None end) /\
                  to_float (Some (45 :: s)) =
                    inr (match parse_unsigned true s with Some f => Some f | None => None end)).
  { intros t E Ht Hm Hne; apply to_float_letters.
    - intros ->; subst; contradiction.
    - exact (lower_letters s t E Ht).
    - rewrite E; exact Hm. }
  split.
  - intros E; destruct (Gen _ E eq_refl eq_refl ltac:(discriminate)) as [H _].
    rewrite H; unfold parse_unsigned; rewrite E; reflexivity.
  - intros [E|E]; destruct (Gen _ E eq_refl eq_refl ltac:(discriminate)) as [H1 H2];
      rewrite H1, H2; unfold parse_unsigned; rewrite E; split; reflexivity.
Qed.

Lemma to_float_nan_inf_witness :
  lower (u "Infinity") = u "infinity" /\
  to_float (Some (45 :: u "Infinity")) = inr (Some (F64Inf true)).
Proof.
  assert (E : lower (u "Infinity") = u "infinity") by reflexivity.
  split; [exact E|].
  exact (proj2 (proj2 (to_float_nan_inf (u "Infinity")) (or_intror E))).
Defined.

(** * Labels *)

Lemma row_get_blank (r : row) (key : pystr) :
  Forall (fun kv => strip (snd kv) = []) r -> strip (row_get r key []) = [].
Proof.
  intros H; unfold row_get.
  destruct (find (fun kv => streq (fst kv) key) r) as [[k v]|] eqn:E; [|reflexivity].
  apply find_some in E as [Hin _].
  rewrite Forall_forall in H; exact (H _ Hin).
Qed.

Lemma first_nonempty_blank (vs : list pystr) :
  Forall (fun v => strip v = []) vs -> first_nonempty vs = [].
Proof.
  induction 1 as [|v vs Hv _ IH]; [reflexivity|]; simpl; rewrite Hv; exact IH.
Qed.

(** X15: a label never starts or ends with a space or an em-dash, and a
    row whose cells are all blank (empty after stripping whitespace) gets
    the empty label, whatever the kind. *)
Theorem make_label_trimmed_or_blank (r : row) (kind : pystr) :
  (forall c rest, make_label r kind = c :: rest -> c <> 32 /\ c <> 8212) /\
  (forall c rest, rev (make_label r kind) = c :: rest -> c <> 32 /\ c <> 8212) /\
  (Forall (fun kv => strip (snd kv) = []) r -> make_label r kind = []).
Proof.
  assert (Sep : forall c, is_sep c = false -> c <> 32 /\ c <> 8212).
  { intros c H; unfold is_sep in H; apply orb_false_iff in H as [H1 H2].
    apply Z.eqb_neq in H1; apply Z.eqb_neq in H2; split; assumption. }
  destruct (strip_chars_ends is_sep
              (let brand := strip (row_get r (u "Product Brand") []) in
               let name := strip (row_get r (u "Product Name") []) in
               let label := join (u " — ") (filter (fun x => negb (is_empty x)) [brand; name]) in
               (if is_empty label then first_nonempty (map snd r) else label)
               ++ label_extra r kind)) as [H1 H2].
  split; [|split].
  - intros c rest E; apply Sep; eapply H1; exact E.
  - intros c rest E; apply Sep; eapply H2; exact E.
  - intros H; unfold make_label.
    rewrite !row_get_blank by exact H; cbn [filter is_empty negb join].
    rewrite first_nonempty_blank.
    2:{ rewrite Forall_map; exact H. }
    assert (Ex : label_extra r kind = []).
    { unfold label_extra; rewrite !row_get_blank by exact H.
      destruct (streq kind (u "sun")); [reflexivity|].
      destruct (streq kind (u "cloth")); reflexivity. }
    rewrite Ex; reflexivity.
Qed.

Lemma make_label_trimmed_or_blank_witness :
  make_label [(u "Product Brand", u "  "); (u "Material", [9])] (u "cloth") = [].
Proof.
  apply (make_label_trimmed_or_blank _ _).
  repeat constructor.
Defined.
